(** * Project Camp backend: notes API, error boundary and permission gate

    A shallow embedding of the parts of the Express/Mongoose backend that
    the specification talks about:

    - [ApiError], [ApiResponse], [asyncHandler] and [errorHandler]
      (utils/api-error.js, utils/api-response.js, utils/async-handler.js,
      middlewares/error.middleware.js, as listed in DOCS.md);
    - the note controllers (controllers/note.controllers.js);
    - the note router (routes/note.routes.js) and the way Express walks
      its middleware stack;
    - the credential verifier and the permission gate, whose source file
      (middlewares/auth.middleware.js) is not part of the sources and is
      therefore modelled from the specification.

    JavaScript objects that are used as dictionaries are [gmap]s, the
    Mongoose collections are [gmap]s from ids to documents, numbers are
    [Z], and exceptions are explicit results. *)

From Stdlib Require Import ZArith Ascii.
From stdpp Require Import gmap strings list fin_maps.

Set Warnings "-register-all".
Open Scope Z_scope.
Open Scope string_scope.

(** ** JavaScript values *)

(** The values that travel through [req.body], [error.errors] and the JSON
    bodies.  Numbers are integers: the only numbers the code handles are
    HTTP status codes. *)
Inductive JsVal : Type :=
| JUndefined
| JNull
| JBool (b : bool)
| JNum (n : Z)
| JStr (s : string)
| JArr (xs : list JsVal)
| JObj (fields : list (string * JsVal)).

(** ToBoolean: [undefined], [null], [false], [0] and the empty string are
    falsy, everything else (arrays and objects included) is truthy. *)
Definition truthy (v : JsVal) : bool :=
  match v with
  | JUndefined | JNull => false
  | JBool b => b
  | JNum n => negb (n =? 0)%Z
  | JStr s => negb (String.eqb s "")
  | JArr _ | JObj _ => true
  end.

(** [a || b] on values: the first operand when it is truthy, else the
    second. *)
Definition js_or (a b : JsVal) : JsVal := if truthy a then a else b.

(** The engine supplies the text of a freshly captured stack trace
    ([Error.captureStackTrace]); its content is engine specific, so it is
    an interface, given the message of the error being built. *)
Class Engine := captureStackTrace : string → string.

(** ** utils/api-error.js *)
Module ApiError.

(** The own properties of an instance.  [message] and [stack] are the
    properties created by the [Error] constructor (they stay
    non-enumerable under assignment); [statusCode], [data], [success]
    and [errors] are created by assignment in the constructor and are
    enumerable. *)
Record t : Type := mk {
  statusCode : Z;
  data : JsVal;
  message : string;
  success : bool;
  errors : JsVal;
  stack : string
}.

(** [new ApiError(statusCode, message = "Something went wrong",
    errors = [], stack = "")].  An omitted (or [undefined]) argument is
    [None] and takes its default. *)
Definition new `{Engine} (statusCode : Z) (message : option string)
    (errors : option JsVal) (stack : option string) : t :=
  let message := default "Something went wrong" message in
  let errors := default (JArr []) errors in
  let stack := default "" stack in
  {| statusCode := statusCode;
     data := JNull;
     message := message;
     success := false;
     errors := errors;
     stack := if truthy (JStr stack) then stack else captureStackTrace message |}.

(** What the object spread [{...error}] copies: the own enumerable
    properties. *)
Definition ownEnumerable (e : t) : gmap string JsVal :=
  <["errors" := errors e]>
    (<["success" := JBool (success e)]>
       (<["data" := data e]>
          (<["statusCode" := JNum (statusCode e)]> ∅))).

End ApiError.

(** ** utils/api-response.js *)
Module ApiResponse.

Record t : Type := mk {
  statusCode : Z;
  data : JsVal;
  message : string;
  success : bool
}.

(** [new ApiResponse(statusCode, data, message = "Success")]. *)
Definition new (statusCode : Z) (data : JsVal) (message : option string) : t :=
  {| statusCode := statusCode;
     data := data;
     message := default "Success" message;
     success := bool_decide (statusCode < 400)%Z |}.

(** The body [res.json] writes for an instance: all four properties are
    plain assignments. *)
Definition toJSON (r : t) : gmap string JsVal :=
  <["success" := JBool (success r)]>
    (<["message" := JStr (message r)]>
       (<["data" := data r]>
          (<["statusCode" := JNum (statusCode r)]> ∅))).

End ApiResponse.

(** ** Thrown values *)

(** An error that is not an [ApiError]: the properties [errorHandler]
    reads from it, and whether it is an instance of [mongoose.Error]. *)
Module NativeError.

Record t : Type := mk {
  statusCode : JsVal;          (* [error.statusCode], [JUndefined] when absent *)
  isMongooseError : bool;      (* [error instanceof mongoose.Error] *)
  message : string;            (* [error.message] *)
  errors : JsVal;              (* [error.errors], [JUndefined] when absent *)
  stack : option string        (* [err.stack], [None] when [undefined] *)
}.

End NativeError.

(** What reaches [next(err)]: the [instanceof ApiError] test is the
    constructor of this type. *)
Inductive Thrown : Type :=
| ThrownApiError (e : ApiError.t)
| ThrownError (e : NativeError.t).

(** ** The HTTP response: [res.status(s).json(body)] *)
Record HttpResponse : Type := {
  status : Z;
  json : gmap string JsVal
}.

(** ** middlewares/error.middleware.js *)
Section ErrorMiddleware.
Context `{Engine}.

(** The [ApiError] the handler works with: the error itself, or the one
    built from a foreign error.  In
    [error.statusCode || error instanceof mongoose.Error ? 400 : 500]
    the conditional operator binds weaker than [||], so the whole
    disjunction is the condition. *)
Definition normalize (err : Thrown) : ApiError.t :=
  match err with
  | ThrownApiError error => error
  | ThrownError error =>
      let statusCode :=
        if truthy (js_or (NativeError.statusCode error)
                         (JBool (NativeError.isMongooseError error)))
        then 400 else 500 in
      let message :=
        if truthy (JStr (NativeError.message error))
        then NativeError.message error else "Something went wrong" in
      ApiError.new statusCode (Some message)
        (Some (js_or (NativeError.errors error) (JArr [])))
        (NativeError.stack error)
  end.

(** [NODE_ENV] is [process.env.NODE_ENV], [None] when unset. *)
Definition errorHandler (NODE_ENV : option string) (err : Thrown) : HttpResponse :=
  let error := normalize err in
  let response :=
    let spread := <["message" := JStr (ApiError.message error)]>
                    (ApiError.ownEnumerable error) in
    if bool_decide (NODE_ENV = Some "development")
    then <["stack" := JStr (ApiError.stack error)]> spread
    else spread in
  {| status := ApiError.statusCode error; json := response |}.

End ErrorMiddleware.

(** ** Documents, collections and requests *)

(** Ids are the strings the routes bind ([req.params]) and the driver
    generates; a collection maps the [_id] of each document to the
    document.  The ids of stored documents are ObjectIds; a string of a
    request that is none makes a query by id fail ([Model.findById]). *)
Abbreviation ObjectId := string (only parsing).

(** The user fields that [populate("createdBy", "username fullName avatar")]
    selects. *)
Record User : Type := {
  username : string;
  fullName : string;
  avatar : JsVal
}.

(** A note, with the fields [createNote] writes. *)
Record ProjectNote : Type := {
  project : ObjectId;
  content : JsVal;
  createdBy : ObjectId
}.

(** Modelled from the spec: utils/constants.js ([UserRolesEnum]) is not
    part of the sources; the data model gives the roles a member can hold
    in a project as the closed set ADMIN, PROJECT_ADMIN, MEMBER. *)
Inductive UserRole : Type := ADMIN | PROJECT_ADMIN | MEMBER.

#[global] Instance UserRole_eq_dec : EqDecision UserRole.
Proof. solve_decision. Defined.

(** Modelled from the spec: [AvailableUserRoles] (utils/constants.js, not
    part of the sources) is the enumerated role set, every role. *)
Definition AvailableUserRoles : list UserRole := [ADMIN; PROJECT_ADMIN; MEMBER].

(** Modelled from the spec: the field [members], the membership table
    (the project-member model is not part of the sources), which gives
    the role of a user in a project, at most one per (user, project)
    pair.  No controller reads or writes it.

    The other fields are the collections behind the [Project],
    [ProjectNote] and [User] models the controllers use.  Project
    documents are only tested for presence, so their content is left as a
    value. *)
Record Db : Type := {
  projects : gmap ObjectId JsVal;
  notes : gmap ObjectId ProjectNote;
  users : gmap ObjectId User;
  members : gmap (ObjectId * ObjectId) UserRole
}.

Definition set_notes (f : gmap ObjectId ProjectNote → gmap ObjectId ProjectNote)
    (db : Db) : Db :=
  {| projects := projects db; notes := f (notes db);
     users := users db; members := members db |}.

(** [req.params]: both note routes bind [projectId], only
    [/:projectId/n/:noteId] binds [noteId]. *)
Record Params : Type := {
  projectId : ObjectId;
  noteId : option ObjectId
}.

Record Request : Type := {
  params : Params;
  body : gmap string JsVal;        (* [req.body] *)
  token : option string;           (* the bearer credential, if any *)
  user : option ObjectId           (* [req.user._id]; [None] while [req.user] is undefined *)
}.

(** ** The Mongoose model operations the controllers call *)
Module Model.

Definition isHexDigit (c : Ascii.ascii) : bool :=
  let n := Ascii.nat_of_ascii c in
  ((48 <=? n) && (n <=? 57) || (65 <=? n) && (n <=? 70)
   || (97 <=? n) && (n <=? 102))%nat.

Fixpoint allHex (s : string) : bool :=
  match s with
  | EmptyString => true
  | String c rest => isHexDigit c && allHex rest
  end.

(** The strings Mongoose casts to an ObjectId: 24 hexadecimal digits. *)
Definition isValidObjectId (s : string) : bool :=
  (String.length s =? 24)%nat && allHex s.

(** The last [digits] hexadecimal digits of a number. *)
Fixpoint hex (digits : nat) (n : N) : string :=
  match digits with
  | O => ""
  | S k =>
      hex k (n / 16)%N
        +:+ String (default "0"%char
                      (String.get (N.to_nat (n mod 16)%N) "0123456789abcdef")) ""
  end.

(** The id of a new document: an ObjectId that is not in use, here the
    first of the ids 0, 1, 2, ... written in 24 digits.  There are more
    candidates than ids in use, so one of them is free; the last line
    only makes the definition total. *)
Definition newObjectId (used : gset ObjectId) : ObjectId :=
  match List.find (λ i, bool_decide (i ∉ used))
          ((λ k, hex 24 (N.of_nat k)) <$> seq 0 (S (size used))) with
  | Some i => i
  | None => fresh used
  end.

(** What awaiting a query by id gives: the query resolves, to a document
    with its [_id] or to [null], or it rejects with a [CastError] for the
    value that is no ObjectId. *)
Inductive Query (A : Type) : Type :=
| Resolves (doc : option (ObjectId * A))
| Rejects (value : string).
Arguments Resolves {A} doc.
Arguments Rejects {A} value.

Section Collection.
Context {A : Type}.

(** Casting the string of a request to the [_id] of a collection.  The
    ids stored in a collection are ObjectIds, so a string that is a
    stored id is cast to it; any other string is cast when it is 24
    hexadecimal digits. *)
Definition castable (i : string) (c : gmap ObjectId A) : bool :=
  bool_decide (i ∈ dom c) || isValidObjectId i.

(** [findById(id)]: the document with its [_id], or [null]; a
    [CastError] when the id cannot be cast.  An [undefined] id finds
    nothing. *)
Definition findById (id : option string) (c : gmap ObjectId A) : Query A :=
  match id with
  | None => Resolves None
  | Some i =>
      if castable i c then Resolves ((λ d, (i, d)) <$> c !! i)
      else Rejects i
  end.

(** [find(filter)]: every matching document. *)
Definition find (P : A → bool) (c : gmap ObjectId A) : list (ObjectId * A) :=
  List.filter (λ kv, P kv.2) (map_to_list c).

(** [create(doc)]: stores the document under a new id.  Documents are
    stored as given: what the schema of a model adds or refuses is not
    part of the sources. *)
Definition create (d : A) (c : gmap ObjectId A) : (ObjectId * A) * gmap ObjectId A :=
  let i := newObjectId (dom c) in ((i, d), <[i := d]> c).

(** [findByIdAndUpdate(id, update, { new: true })]: the document as
    updated, or [null]; a [CastError] as for [findById]. *)
Definition findByIdAndUpdate (id : option string) (f : A → A)
    (c : gmap ObjectId A) : Query A * gmap ObjectId A :=
  match findById id c with
  | Resolves (Some (i, d)) => (Resolves (Some (i, f d)), <[i := f d]> c)
  | q => (q, c)
  end.

(** [findByIdAndDelete(id)]: the removed document, or [null]; a
    [CastError] as for [findById]. *)
Definition findByIdAndDelete (id : option string) (c : gmap ObjectId A)
    : Query A * gmap ObjectId A :=
  match findById id c with
  | Resolves (Some (i, d)) => (Resolves (Some (i, d)), delete i c)
  | q => (q, c)
  end.
End Collection.
End Model.

(** ** controllers/note.controllers.js *)

(** A request handler either answers ([res.status(s).json(body)]) or
    throws. *)
Inductive Result : Type :=
| Respond (status : Z) (body : ApiResponse.t)
| Throw (e : Thrown).

(** Each controller below is the async function the source hands to
    [asyncHandler]; the wrapping is applied where the router runs it
    ([NoteRoutes.exec]).  A controller takes the request and the database
    and gives its result with the database it leaves. *)
Module NoteControllers.
Section Controllers.
Context `{Engine}.

(** A note as JSON, [createdBy] being whatever stands there (the id,
    or what [populate] put in its place). *)
Definition noteJSON (n : ObjectId * ProjectNote) (createdBy : JsVal) : JsVal :=
  JObj [("_id", JStr n.1); ("project", JStr (project n.2));
        ("content", content n.2); ("createdBy", createdBy)].

Definition plain (n : ObjectId * ProjectNote) : JsVal :=
  noteJSON n (JStr (createdBy n.2)).

(** [.populate("createdBy", "username fullName avatar")]: the selected
    fields of the author, [null] when the author is gone. *)
Definition populate (db : Db) (n : ObjectId * ProjectNote) : JsVal :=
  noteJSON n
    match users db !! createdBy n.2 with
    | Some u => JObj [("_id", JStr (createdBy n.2)); ("username", JStr (username u));
                      ("fullName", JStr (fullName u)); ("avatar", avatar u)]
    | None => JNull
    end.

Definition notFound (what : string) : Result :=
  Throw (ThrownApiError (ApiError.new 404 (Some what) None None)).

(** Reading [req.user._id] while [req.user] is undefined. *)
Definition userTypeError : Thrown :=
  let m := "Cannot read properties of undefined (reading '_id')" in
  ThrownError {| NativeError.statusCode := JUndefined;
                 NativeError.isMongooseError := false;
                 NativeError.message := m;
                 NativeError.errors := JUndefined;
                 NativeError.stack := Some (captureStackTrace m) |}.

(** A string between double quotes. *)
Definition quoted (s : string) : string :=
  String (Ascii.ascii_of_nat 34) s +:+ String (Ascii.ascii_of_nat 34) "".

(** The [CastError] a query by id of [model] rejects with, for a value
    that is no ObjectId: an instance of [mongoose.Error], without
    [statusCode] and without [errors].  The model is named as the
    controller imports it. *)
Definition castError (model value : string) : Thrown :=
  let m := "Cast to ObjectId failed for value " +:+ quoted value
           +:+ " (type string) at path " +:+ quoted "_id"
           +:+ " for model " +:+ quoted model in
  ThrownError {| NativeError.statusCode := JUndefined;
                 NativeError.isMongooseError := true;
                 NativeError.message := m;
                 NativeError.errors := JUndefined;
                 NativeError.stack := Some (captureStackTrace m) |}.

(** The update [{ content }]: Mongoose leaves out of an update a key
    whose value is [undefined], so a body without [content] updates
    nothing. *)
Definition setContent (content_ : JsVal) (n : ProjectNote) : ProjectNote :=
  match content_ with
  | JUndefined => n
  | _ => {| project := project n; content := content_; createdBy := createdBy n |}
  end.

Definition getNotes (req : Request) (db : Db) : Result * Db :=
  let projectId := projectId (params req) in
  let project_ := Model.findById (Some projectId) (projects db) in
  match project_ with
  | Model.Rejects value => (Throw (castError "Project" value), db)
  | Model.Resolves None => (notFound "Project not found", db)
  | Model.Resolves (Some _) =>
      let notes_ :=
        populate db <$>
          Model.find (λ n, bool_decide (project n = projectId)) (notes db) in
      (Respond 200 (ApiResponse.new 200 (JArr notes_)
                      (Some "Notes fetched successfully")), db)
  end.

Definition createNote (req : Request) (db : Db) : Result * Db :=
  let projectId := projectId (params req) in
  let content := default JUndefined (body req !! "content") in
  let project_ := Model.findById (Some projectId) (projects db) in
  match project_ with
  | Model.Rejects value => (Throw (castError "Project" value), db)
  | Model.Resolves None => (notFound "Project not found", db)
  | Model.Resolves (Some _) =>
      match user req with
      | None => (Throw userTypeError, db)
      | Some uid =>
          let '(note, notes') :=
            Model.create {| project := projectId; content := content;
                            createdBy := uid |} (notes db) in
          let db' := set_notes (λ _, notes') db in
          match Model.findById (Some note.1) (notes db') with
          | Model.Rejects value => (Throw (castError "ProjectNote" value), db')
          | Model.Resolves populatedNote =>
              (Respond 201 (ApiResponse.new 201
                              (from_option (populate db') JNull populatedNote)
                              (Some "Note created successfully")), db')
          end
      end
  end.

Definition updateNote (req : Request) (db : Db) : Result * Db :=
  let noteId := noteId (params req) in
  let content_ := default JUndefined (body req !! "content") in
  let existingNote := Model.findById noteId (notes db) in
  match existingNote with
  | Model.Rejects value => (Throw (castError "ProjectNote" value), db)
  | Model.Resolves None => (notFound "Note not found", db)
  | Model.Resolves (Some _) =>
      let '(note, notes') :=
        Model.findByIdAndUpdate noteId (setContent content_) (notes db) in
      let db' := set_notes (λ _, notes') db in
      match note with
      | Model.Rejects value => (Throw (castError "ProjectNote" value), db')
      | Model.Resolves note =>
          (Respond 200 (ApiResponse.new 200 (from_option (populate db') JNull note)
                          (Some "Note updated successfully")), db')
      end
  end.

Definition deleteNote (req : Request) (db : Db) : Result * Db :=
  let noteId := noteId (params req) in
  let '(note, notes') := Model.findByIdAndDelete noteId (notes db) in
  let db' := set_notes (λ _, notes') db in
  match note with
  | Model.Rejects value => (Throw (castError "ProjectNote" value), db')
  | Model.Resolves None => (notFound "Note not found", db')
  | Model.Resolves (Some n) =>
      (Respond 200 (ApiResponse.new 200 (plain n)
                      (Some "Note deleted successfully")), db')
  end.

Definition getNoteById (req : Request) (db : Db) : Result * Db :=
  let noteId := noteId (params req) in
  let note := Model.findById noteId (notes db) in
  match note with
  | Model.Rejects value => (Throw (castError "ProjectNote" value), db)
  | Model.Resolves None => (notFound "Note not found", db)
  | Model.Resolves (Some n) =>
      (Respond 200 (ApiResponse.new 200 (populate db n)
                      (Some "Note fetched successfully")), db)
  end.

End Controllers.
End NoteControllers.

(** ** Express middleware *)
Module Middleware.

(** What a middleware does with a request: pass it on ([next()]), raise
    an error ([next(err)], or a throw), or answer. *)
Inductive Outcome : Type :=
| Next (req : Request)
| NextErr (e : Thrown)
| Sent (r : HttpResponse).

Definition t : Type := Request → Db → Outcome * Db.

(** utils/async-handler.js: the handler's answer is sent, a rejection is
    handed to [next]. *)
Definition asyncHandler (requestHandler : Request → Db → Result * Db) : t :=
  λ req db,
    match requestHandler req db with
    | (Respond s b, db') => (Sent {| status := s; json := ApiResponse.toJSON b |}, db')
    | (Throw err, db') => (NextErr err, db')
    end.

(** The middlewares the note router imports from modules that are not
    part of the sources (middlewares/auth.middleware.js,
    middlewares/validator.middleware.js, validators/index.js).  The
    router is studied for every behaviour they may have. *)
Class Imported : Type := {
  verifyJWT : t;
  validateProjectPermission : list UserRole → t;
  notesValidator : t;
  validate : t
}.

Definition passes (m : t) (req : Request) (db : Db) : bool :=
  match m req db with
  | (Next _, _) => true
  | _ => false
  end.

End Middleware.

(** ** routes/note.routes.js *)
Module NoteRoutes.

(** The methods of a request: those app.js lists for the API, and HEAD.
    The note router registers handlers for the first four only. *)
Inductive Method : Type := GET | POST | PUT | DELETE | PATCH | OPTIONS | HEAD.

#[global] Instance Method_eq_dec : EqDecision Method.
Proof. solve_decision. Defined.

(** The functions the router registers. *)
Inductive Stage : Type :=
| verifyJWT
| validateProjectPermission (roles : list UserRole)
| notesValidator
| validate
| getNotes
| createNote
| updateNote
| deleteNote
| getNoteById.

(** A router is a stack of layers: [router.use(f)] pushes a layer that
    runs for every request, [router.route(path)] one that runs the
    handlers registered for the request's method when the path matches. *)
Inductive Layer : Type :=
| Use (f : Stage)
| Route (path : string) (stack : list (Method * Stage)).

Definition router : list Layer :=
  [ Use verifyJWT;
    Route "/:projectId"
      [ (GET, validateProjectPermission AvailableUserRoles);
        (GET, getNotes);
        (POST, validateProjectPermission [ADMIN]);
        (POST, notesValidator);
        (POST, validate);
        (POST, createNote) ];
    Route "/:projectId/n/:noteId"
      [ (GET, validateProjectPermission AvailableUserRoles);
        (GET, getNoteById);
        (PUT, validateProjectPermission [ADMIN]);
        (PUT, notesValidator);
        (PUT, validate);
        (PUT, updateNote);
        (DELETE, validateProjectPermission [ADMIN]);
        (DELETE, deleteNote) ] ].

(** The routes of the table, by method and path: the five the router
    registers, and the HEAD requests that Express serves with the
    handlers of the two GET routes. *)
Definition routes : list (Method * string) :=
  [ (GET, "/:projectId"); (POST, "/:projectId");
    (GET, "/:projectId/n/:noteId"); (PUT, "/:projectId/n/:noteId");
    (DELETE, "/:projectId/n/:noteId");
    (HEAD, "/:projectId"); (HEAD, "/:projectId/n/:noteId") ].

(** Express serves a HEAD request with the GET handlers of a route that
    registers none for HEAD. *)
Definition effective (method : Method) (stack : list (Method * Stage)) : Method :=
  if bool_decide (method = HEAD)
     && negb (existsb (λ h, bool_decide (h.1 = HEAD)) stack)
  then GET else method.

Definition handlersFor (method : Method) (stack : list (Method * Stage)) : list Stage :=
  snd <$> List.filter (λ h, bool_decide (h.1 = effective method stack)) stack.

(** The functions Express lines up for a request, in order; [path] is
    the route pattern the request's URL matches. *)
Fixpoint dispatch (layers : list Layer) (method : Method) (path : string) : list Stage :=
  match layers with
  | [] => []
  | Use f :: rest => f :: dispatch rest method path
  | Route p stack :: rest =>
      (if bool_decide (p = path) then handlersFor method stack else [])
        ++ dispatch rest method path
  end.

(** The methods that change data. *)
Definition mutating (method : Method) : bool :=
  match method with
  | POST | PUT | DELETE | PATCH => true
  | GET | OPTIONS | HEAD => false
  end.

(** The role sets the functions of a chain declare. *)
Definition allowedRoles (chain : list Stage) : list (list UserRole) :=
  omap (λ f, match f with validateProjectPermission rs => Some rs | _ => None end) chain.

Definition isValidator (f : Stage) : bool :=
  match f with
  | notesValidator | validate => true
  | _ => false
  end.

Definition validatorCalls (trace : list Stage) : nat :=
  length (List.filter isValidator trace).

(** The functions that are controllers (the last function of each
    route). *)
Definition isController (f : Stage) : bool :=
  match f with
  | getNotes | createNote | updateNote | deleteNote | getNoteById => true
  | _ => false
  end.

Section Run.
Context `{Engine} `{Middleware.Imported}.

Definition exec (f : Stage) : Middleware.t :=
  match f with
  | verifyJWT => Middleware.verifyJWT
  | validateProjectPermission roles => Middleware.validateProjectPermission roles
  | notesValidator => Middleware.notesValidator
  | validate => Middleware.validate
  | getNotes => Middleware.asyncHandler NoteControllers.getNotes
  | createNote => Middleware.asyncHandler NoteControllers.createNote
  | updateNote => Middleware.asyncHandler NoteControllers.updateNote
  | deleteNote => Middleware.asyncHandler NoteControllers.deleteNote
  | getNoteById => Middleware.asyncHandler NoteControllers.getNoteById
  end.

(** Walks the chain: each function runs only if all before it called
    [next()].  Returns the functions that were invoked, in order, with
    the last outcome and the database. *)
Fixpoint run (chain : list Stage) (req : Request) (db : Db)
    : list Stage * Middleware.Outcome * Db :=
  match chain with
  | [] => ([], Middleware.Next req, db)
  | f :: rest =>
      match exec f req db with
      | (Middleware.Next req', db') =>
          let '(trace, o, db'') := run rest req' db' in (f :: trace, o, db'')
      | (o, db') => ([f], o, db')
      end
  end.

(** app.js: [cors] stands before every router and ends an OPTIONS
    request itself, with status 204 and no body.  Any other request to
    the notes API goes through the note router, and an error ends in
    [errorHandler].  A request no handler answers is left to Express
    ([None] here).  (Of the answer to a HEAD request only the status and
    the headers reach the client.) *)
Definition handle (NODE_ENV : option string) (method : Method) (path : string)
    (req : Request) (db : Db) : option HttpResponse * Db :=
  if bool_decide (method = OPTIONS) then (Some {| status := 204; json := ∅ |}, db)
  else
    match run (dispatch router method path) req db with
    | (_, Middleware.Sent r, db') => (Some r, db')
    | (_, Middleware.NextErr err, db') => (Some (errorHandler NODE_ENV err), db')
    | (_, Middleware.Next _, db') => (None, db')
    end.
End Run.

End NoteRoutes.

(** ** app.js: the CORS origin *)
Module App.

(** [s.split(sep)] for a one-character separator: the pieces between the
    separators, in order; a string without separator is its own single
    piece, the empty string included. *)
Fixpoint split (sep : Ascii.ascii) (s : string) : list string :=
  match s with
  | EmptyString => [""]
  | String c rest =>
      if Ascii.eqb c sep then "" :: split sep rest
      else match split sep rest with
           | piece :: pieces => String c piece :: pieces
           | [] => [String c ""]
           end
  end.

(** [pieces.join(sep)]. *)
Fixpoint join (sep : Ascii.ascii) (pieces : list string) : string :=
  match pieces with
  | [] => ""
  | [piece] => piece
  | piece :: rest => piece +:+ String sep (join sep rest)
  end.

(** Whether a string holds the character. *)
Fixpoint contains (sep : Ascii.ascii) (s : string) : bool :=
  match s with
  | EmptyString => false
  | String c rest => Ascii.eqb c sep || contains sep rest
  end.

(** The [origin] option handed to [cors]:
    [process.env.CORS_ORIGIN?.split(",") || "http://localhost:5173"],
    [CORS_ORIGIN] being [None] when the variable is unset. *)
Definition corsOrigin (CORS_ORIGIN : option string) : JsVal :=
  js_or
    match CORS_ORIGIN with
    | Some s => JArr (JStr <$> split ","%char s)
    | None => JUndefined
    end
    (JStr "http://localhost:5173").

End App.

(** ** The credential verifier and the permission gate *)
Module Gate.

(** Modelled from the spec: middlewares/auth.middleware.js is not part
    of the sources.  A session token is a signed, time-bound credential
    referencing an identity; it is valid when its signature is correct
    and it has not expired. *)
Record SessionToken : Type := {
  identity : ObjectId;
  exp : Z
}.

(** Modelled from the spec: the key source of the external interfaces.
    [decode] reads a token string into its claims and its signature
    ([None] for a malformed string), [sign] is the signature the key
    material gives to these claims. *)
Class KeySource : Type := {
  decode : string → option (SessionToken * string);
  sign : SessionToken → string
}.

(** Modelled from the spec: the error taxonomy of the request
    pipeline (section 7). *)
Inductive ErrorKind : Type :=
| Unauthenticated
| NotAMember
| InsufficientRole
| ResourceNotFound
| ValidationFailed.

(** Modelled from the spec: the Credential Verifier (4.1).  Given the
    token string, if any, and the current time, it produces the
    identity or fails with [Unauthenticated]: no token, a malformed
    token, a wrong signature and an expired token all fail. *)
Definition verify `{KeySource} (now : Z) (token : option string)
    : ObjectId + ErrorKind :=
  match token with
  | None => inr Unauthenticated
  | Some s =>
      match decode s with
      | None => inr Unauthenticated
      | Some (claims, signature) =>
          if negb (String.eqb signature (sign claims)) then inr Unauthenticated
          else if (exp claims <=? now)%Z then inr Unauthenticated
          else inl (identity claims)
      end
  end.

(** Modelled from the spec: the decision of the Permission Gate,
    [Allow | Deny(reason)]. *)
Inductive Decision : Type :=
| Allow (role : UserRole)
| Deny (reason : ErrorKind).

(** Modelled from the spec: the Project Membership Resolver (4.2), a
    single lookup keyed by (user, project): the role, or no
    membership. *)
Definition resolveMembership (identity projectId : ObjectId) (db : Db)
    : option UserRole :=
  members db !! (identity, projectId).

(** Modelled from the spec: the Permission Gate (4.3),
    [authorize(identity, projectId, allowedRoles)], with the database
    threaded through as for every other operation.
    1. resolve the membership role; 2. no membership: [Deny NotAMember];
    3. role not allowed: [Deny InsufficientRole]; 4. else [Allow role]. *)
Definition authorize (identity projectId : ObjectId)
    (allowedRoles : list UserRole) (db : Db) : Decision * Db :=
  match resolveMembership identity projectId db with
  | None => (Deny NotAMember, db)
  | Some role =>
      if bool_decide (role ∈ allowedRoles)
      then (Allow role, db)
      else (Deny InsufficientRole, db)
  end.

End Gate.

(** ** Concrete data *)

(** A small deployment on which the definitions can be run: two
    projects, two users, one note, and the middlewares built on the
    gate. *)
Module Scenario.

Definition engine : Engine := λ m, "Error: " +:+ m.

(** A storage error, as Mongoose raises for an id it cannot cast. *)
Definition castError : NativeError.t :=
  {| NativeError.statusCode := JUndefined;
     NativeError.isMongooseError := true;
     NativeError.message := "Cast to ObjectId failed";
     NativeError.errors := JUndefined;
     NativeError.stack := Some "CastError: Cast to ObjectId failed" |}.

(** A plain [Error]. *)
Definition plainError : NativeError.t :=
  {| NativeError.statusCode := JUndefined;
     NativeError.isMongooseError := false;
     NativeError.message := "boom";
     NativeError.errors := JUndefined;
     NativeError.stack := Some "Error: boom" |}.

(** The ids: projects [p1], [p2]; the note [n1]; the users [u1] (alice)
    and [u2] (bob); and two well-formed ids of nothing, [p9] and [n9]. *)
Definition p1 : ObjectId := "aaaaaaaaaaaaaaaaaaaaaaa1".
Definition p2 : ObjectId := "aaaaaaaaaaaaaaaaaaaaaaa2".
Definition n1 : ObjectId := "bbbbbbbbbbbbbbbbbbbbbbb1".
Definition u1 : ObjectId := "ccccccccccccccccccccccc1".
Definition u2 : ObjectId := "ccccccccccccccccccccccc2".

Definition alice : User :=
  {| username := "alice"; fullName := "Alice A"; avatar := JStr "a.png" |}.
Definition bob : User :=
  {| username := "bob"; fullName := "Bob B"; avatar := JStr "b.png" |}.

(** The note [n1] belongs to project [p2]; alice administers [p1] only,
    bob is a plain member of [p1]. *)
Definition note1 : ProjectNote :=
  {| project := p2; content := JStr "secret of p2"; createdBy := u2 |}.

Definition db : Db :=
  {| projects := <[p1 := JObj [("name", JStr "one")]]>
                   (<[p2 := JObj [("name", JStr "two")]]> ∅);
     notes := <[n1 := note1]> ∅;
     users := <[u1 := alice]> (<[u2 := bob]> ∅);
     members := <[(u1, p1) := ADMIN]> (<[(u2, p1) := MEMBER]> ∅) |}.

Definition request (projectId : ObjectId) (noteId : option ObjectId)
    (content : JsVal) (token : option string) (user : option ObjectId) : Request :=
  {| params := {| projectId := projectId; noteId := noteId |};
     body := <["content" := content]> ∅;
     token := token;
     user := user |}.

(** Tokens: ["good"] is alice's, valid until 100; ["old"] expired at 10;
    ["forged"] carries a wrong signature; anything else is malformed. *)
Definition keys : Gate.KeySource :=
  {| Gate.decode := λ s,
       if String.eqb s "good" then
         Some ({| Gate.identity := u1; Gate.exp := 100 |}, ("sig:" +:+ u1))
       else if String.eqb s "old" then
         Some ({| Gate.identity := u1; Gate.exp := 10 |}, ("sig:" +:+ u1))
       else if String.eqb s "forged" then
         Some ({| Gate.identity := u1; Gate.exp := 100 |}, "sig:??")
       else None;
     Gate.sign := λ claims, "sig:" +:+ Gate.identity claims |}.

Definition now : Z := 50.

Definition reject (statusCode : Z) (message : string) : Middleware.Outcome :=
  Middleware.NextErr
    (ThrownApiError (@ApiError.new engine statusCode (Some message) None None)).

(** The imported middlewares, built on the verifier and the gate. *)
Definition middlewares : Middleware.Imported :=
  {| Middleware.verifyJWT := λ req db,
       match @Gate.verify keys now (token req) with
       | inl id =>
           (Middleware.Next {| params := params req; body := body req;
                               token := token req; user := Some id |}, db)
       | inr _ => (reject 401 "Unauthorized request", db)
       end;
     Middleware.validateProjectPermission := λ roles req db,
       match user req with
       | None => (reject 401 "Unauthorized request", db)
       | Some id =>
           match Gate.authorize id (projectId (params req)) roles db with
           | (Gate.Allow _, db') => (Middleware.Next req, db')
           | (Gate.Deny _, db') => (reject 403 "Forbidden", db')
           end
       end;
     Middleware.notesValidator := λ req db, (Middleware.Next req, db);
     Middleware.validate := λ req db,
       if truthy (default JUndefined (body req !! "content"))
       then (Middleware.Next req, db)
       else (reject 422 "Received data is not valid", db) |}.

End Scenario.

(** Further requests and errors to run the definitions on. *)
Module Examples.

(** Alice writes a note in project [p1]. *)
Definition createRequest : Request :=
  Scenario.request Scenario.p1 None (JStr "hello") None (Some Scenario.u1).

(** A request on the note [n1], through the project named. *)
Definition noteRequest (projectId : ObjectId) : Request :=
  Scenario.request projectId (Some Scenario.n1) (JStr "new text") None (Some Scenario.u1).

(** A request that carries a token and no user yet. *)
Definition tokenRequest (token : string) : Request :=
  Scenario.request Scenario.p1 None (JStr "hello") (Some token) None.

(** An error of another library that carries its own [statusCode]. *)
Definition unavailable : NativeError.t :=
  {| NativeError.statusCode := JNum 503;
     NativeError.isMongooseError := false;
     NativeError.message := "";
     NativeError.errors := JUndefined;
     NativeError.stack := None |}.

End Examples.

(** ** Proof steps for chains of middlewares *)

(** One step of a chain whose head is a middleware, in the hypothesis
    [Hin] that tells what was invoked; [cases] is the lemma that splits
    on whether the head called [next()]. *)
Ltac step_chain cases Hin :=
  match type of Hin with
  | context [NoteRoutes.run (?f :: ?rest) ?r ?d] =>
      lazymatch f with
      | NoteRoutes.verifyJWT => idtac
      | NoteRoutes.validateProjectPermission _ => idtac
      | NoteRoutes.notesValidator => idtac
      | NoteRoutes.validate => idtac
      end;
      let Htr := fresh "Htr" in
      destruct (cases f rest r d) as [[_ Htr]|(? & ? & ? & Htr)];
      rewrite Htr in Hin; clear Htr
  end.

(** A controller is none of the middlewares: [Hc] says the function is a
    controller, [Hin] that it is one of a list of middlewares. *)
Ltac no_controller Hc Hin :=
  exfalso; simpl in Hin;
  repeat (apply elem_of_cons in Hin as [->|Hin]; [simpl in Hc; discriminate Hc|]);
  by apply elem_of_nil in Hin.

(** Membership in the table of routes. *)
Ltac in_routes :=
  unfold NoteRoutes.routes;
  repeat first [apply list_elem_of_here | apply list_elem_of_further].

(** * Properties *)

(** ** The error boundary *)
Section ErrorBoundary.
Context `{Engine}.

Lemma ownEnumerable_stack (e : ApiError.t) :
  ApiError.ownEnumerable e !! "stack" = None.
Proof. reflexivity. Qed.

Lemma errorHandler_status (NODE_ENV : option string) (err : Thrown) :
  status (errorHandler NODE_ENV err) = ApiError.statusCode (normalize err).
Proof. reflexivity. Qed.

(** The fields of the body that come from the spread. *)
Lemma errorHandler_json_fields (NODE_ENV : option string) (err : Thrown) :
  let e := normalize err in
  let r := errorHandler NODE_ENV err in
  json r !! "statusCode" = Some (JNum (ApiError.statusCode e))
  ∧ json r !! "success" = Some (JBool (ApiError.success e))
  ∧ json r !! "data" = Some (ApiError.data e)
  ∧ json r !! "errors" = Some (ApiError.errors e)
  ∧ json r !! "message" = Some (JStr (ApiError.message e)).
Proof.
  unfold errorHandler; simpl.
  case_bool_decide; repeat split; reflexivity.
Qed.

Lemma errorHandler_json_stack (NODE_ENV : option string) (err : Thrown) :
  json (errorHandler NODE_ENV err) !! "stack" =
    if bool_decide (NODE_ENV = Some "development")
    then Some (JStr (ApiError.stack (normalize err))) else None.
Proof.
  unfold errorHandler; simpl.
  case_bool_decide; reflexivity.
Qed.

(** A foreign error always becomes an error built by the constructor. *)
Lemma normalize_foreign_shape (e : NativeError.t) :
  ApiError.success (normalize (ThrownError e)) = false
  ∧ ApiError.data (normalize (ThrownError e)) = JNull.
Proof. split; reflexivity. Qed.

Lemma normalize_foreign_status (e : NativeError.t) :
  ApiError.statusCode (normalize (ThrownError e)) =
    if truthy (NativeError.statusCode e) || NativeError.isMongooseError e
    then 400 else 500.
Proof.
  simpl. unfold js_or.
  destruct (truthy (NativeError.statusCode e)) eqn:Hs; simpl.
  - by rewrite Hs.
  - reflexivity.
Qed.

(** C2 (as amended): an error that is not an [ApiError] is answered with
    an [ApiError]-shaped body ([success] false, [data] null, the status
    repeated in [statusCode]); when the error has no truthy [statusCode]
    of its own, the HTTP status is 400 for a storage (mongoose) error
    and 500 otherwise. *)
Theorem errorHandler_foreign_error (NODE_ENV : option string) (e : NativeError.t) :
  let r := errorHandler NODE_ENV (ThrownError e) in
  json r !! "success" = Some (JBool false)
  ∧ json r !! "data" = Some JNull
  ∧ json r !! "statusCode" = Some (JNum (status r))
  ∧ (truthy (NativeError.statusCode e) = false →
     status r = if NativeError.isMongooseError e then 400 else 500).
Proof.
  intros r.
  destruct (errorHandler_json_fields NODE_ENV (ThrownError e))
    as (Hsc & Hsuc & Hdata & _ & _).
  destruct (normalize_foreign_shape e) as [Hs Hd].
  subst r. rewrite Hsuc, Hdata, Hsc, Hs, Hd, errorHandler_status.
  repeat split.
  intros Hfalsy. rewrite normalize_foreign_status, Hfalsy. reflexivity.
Qed.

(** C8: the body carries a [stack] field exactly when [NODE_ENV] is
    ["development"]; hence a body with a stack was not produced in
    production mode, and in production mode no body has one. *)
Theorem errorHandler_stack_only_outside_production
    (NODE_ENV : option string) (err : Thrown) :
  (is_Some (json (errorHandler NODE_ENV err) !! "stack")
     ↔ NODE_ENV = Some "development")
  ∧ (is_Some (json (errorHandler NODE_ENV err) !! "stack")
     → NODE_ENV ≠ Some "production")
  ∧ json (errorHandler (Some "production") err) !! "stack" = None.
Proof.
  assert (Hiff : is_Some (json (errorHandler NODE_ENV err) !! "stack")
                   ↔ NODE_ENV = Some "development").
  { rewrite errorHandler_json_stack. case_bool_decide as Hdev.
    - split; [done | eauto].
    - split; [intros [? ?]; discriminate | done]. }
  split; [exact Hiff | split].
  - intros Hstack%Hiff. rewrite Hstack. discriminate.
  - rewrite errorHandler_json_stack. reflexivity.
Qed.

(** C10: an [ApiError] is built with [success] false and [data] null; an
    [ApiResponse] below 400 is built with [success] true; and the error
    handler answers with the [statusCode] of the error as HTTP status
    and [success] false in the body, for a thrown [ApiError] as for a
    foreign error. *)
Theorem error_responses_never_successful :
  (∀ sc m es st,
     ApiError.success (ApiError.new sc m es st) = false
     ∧ ApiError.data (ApiError.new sc m es st) = JNull)
  ∧ (∀ sc d m, (sc < 400)%Z →
       ApiResponse.success (ApiResponse.new sc d m) = true)
  ∧ (∀ NODE_ENV sc m es st,
       let r := errorHandler NODE_ENV (ThrownApiError (ApiError.new sc m es st)) in
       status r = sc
       ∧ json r !! "statusCode" = Some (JNum sc)
       ∧ json r !! "success" = Some (JBool false))
  ∧ (∀ NODE_ENV e,
       let r := errorHandler NODE_ENV (ThrownError e) in
       status r = ApiError.statusCode (normalize (ThrownError e))
       ∧ json r !! "statusCode" = Some (JNum (status r))
       ∧ json r !! "success" = Some (JBool false)).
Proof.
  repeat split.
  - intros sc d m Hlt. unfold ApiResponse.new; simpl.
    by apply bool_decide_eq_true.
  - apply (errorHandler_json_fields NODE_ENV
             (ThrownApiError (ApiError.new sc m es st))).
  - apply (errorHandler_json_fields NODE_ENV
             (ThrownApiError (ApiError.new sc m es st))).
  - apply (errorHandler_json_fields NODE_ENV (ThrownError e)).
  - apply (errorHandler_json_fields NODE_ENV (ThrownError e)).
Qed.

End ErrorBoundary.

(** C2 (as stated) fails: a storage error with no status of its own is
    answered with 400, not 500. *)
Lemma errorHandler_storage_error_is_400 :
  status (@errorHandler Scenario.engine (Some "production")
            (ThrownError Scenario.castError)) = 400%Z
  ∧ status (@errorHandler Scenario.engine (Some "production")
              (ThrownError Scenario.castError)) ≠ 500%Z.
Proof. split; [reflexivity | discriminate]. Qed.

Lemma errorHandler_foreign_error_witness :
  status (@errorHandler Scenario.engine (Some "production")
            (ThrownError Scenario.plainError)) = 500%Z.
Proof.
  apply (@errorHandler_foreign_error Scenario.engine (Some "production")
           Scenario.plainError).
  reflexivity.
Defined.

Lemma errorHandler_stack_witness :
  Some "development" ≠ Some "production".
Proof.
  apply (proj1 (proj2 (@errorHandler_stack_only_outside_production
                         Scenario.engine (Some "development")
                         (ThrownError Scenario.plainError)))).
  eexists. reflexivity.
Defined.

Lemma error_responses_never_successful_witness :
  ApiResponse.success (ApiResponse.new 201 JNull None) = true.
Proof.
  apply (proj1 (proj2 (@error_responses_never_successful Scenario.engine))).
  reflexivity.
Defined.

(** ** The note controllers *)
Section NoteControllers.
Context `{Engine}.
Import NoteControllers.

Lemma set_notes_id (db : Db) : set_notes (λ _, notes db) db = db.
Proof. by destruct db. Qed.

(** The three outcomes of a query by id. *)
Lemma findById_Some {A} (i : ObjectId) (d : A) (c : gmap ObjectId A) :
  c !! i = Some d → Model.findById (Some i) c = Model.Resolves (Some (i, d)).
Proof.
  intros Hd. unfold Model.findById, Model.castable.
  rewrite bool_decide_eq_true_2 by (by apply elem_of_dom_2 with d).
  simpl. by rewrite Hd.
Qed.

Lemma findById_missing {A} (i : ObjectId) (c : gmap ObjectId A) :
  c !! i = None →
  Model.findById (Some i) c =
    if Model.isValidObjectId i then Model.Resolves None else Model.Rejects i.
Proof.
  intros Hd. unfold Model.findById, Model.castable.
  rewrite bool_decide_eq_false_2 by (by apply not_elem_of_dom).
  simpl. rewrite Hd. by destruct (Model.isValidObjectId i).
Qed.

Lemma findById_None {A} (i : ObjectId) (c : gmap ObjectId A) :
  Model.isValidObjectId i = true → c !! i = None →
  Model.findById (Some i) c = Model.Resolves None.
Proof. intros Hvalid Hd. by rewrite findById_missing, Hvalid. Qed.

Lemma findById_Rejects {A} (i : ObjectId) (c : gmap ObjectId A) :
  Model.isValidObjectId i = false → c !! i = None →
  Model.findById (Some i) c = Model.Rejects i.
Proof. intros Hvalid Hd. by rewrite findById_missing, Hvalid. Qed.


(** With an id that cannot be cast, each controller throws the
    [CastError] of its query, a mongoose error, and leaves the
    database. *)
Lemma uncastable_id_rejects (req : Request) (db : Db) :
  (Model.isValidObjectId (projectId (params req)) = false →
   projects db !! projectId (params req) = None →
     getNotes req db = (Throw (castError "Project" (projectId (params req))), db)
     ∧ createNote req db
       = (Throw (castError "Project" (projectId (params req))), db))
  ∧ (∀ i, noteId (params req) = Some i →
     Model.isValidObjectId i = false → notes db !! i = None →
     updateNote req db = (Throw (castError "ProjectNote" i), db)
     ∧ deleteNote req db = (Throw (castError "ProjectNote" i), db)
     ∧ getNoteById req db = (Throw (castError "ProjectNote" i), db)).
Proof.
  split.
  - intros Hvalid Hproject. unfold getNotes, createNote.
    by rewrite (findById_Rejects _ _ Hvalid Hproject).
  - intros i Hi Hvalid Hnote.
    unfold updateNote, deleteNote, getNoteById, Model.findByIdAndDelete.
    rewrite Hi, (findById_Rejects _ _ Hvalid Hnote). rewrite set_notes_id. done.
Qed.

(** The 404 travels through [asyncHandler] and [errorHandler] as the
    HTTP status. *)
Lemma notFound_answer (NODE_ENV : option string) (what : string) :
  status (errorHandler NODE_ENV
            (ThrownApiError (ApiError.new 404 (Some what) None None))) = 404%Z.
Proof. reflexivity. Qed.

(** What the three note operations do to a note that exists, whatever
    project the request names. *)
Lemma getNoteById_found (req : Request) (db : Db) (i : ObjectId) (n : ProjectNote) :
  noteId (params req) = Some i → notes db !! i = Some n →
  getNoteById req db =
    (Respond 200 (ApiResponse.new 200 (populate db (i, n))
                    (Some "Note fetched successfully")), db).
Proof.
  intros Hid Hn. unfold getNoteById.
  by rewrite Hid, (findById_Some _ _ _ Hn).
Qed.

Lemma deleteNote_found (req : Request) (db : Db) (i : ObjectId) (n : ProjectNote) :
  noteId (params req) = Some i → notes db !! i = Some n →
  deleteNote req db =
    (Respond 200 (ApiResponse.new 200 (plain (i, n))
                    (Some "Note deleted successfully")),
     set_notes (λ _, delete i (notes db)) db).
Proof.
  intros Hid Hn. unfold deleteNote, Model.findByIdAndDelete.
  by rewrite Hid, (findById_Some _ _ _ Hn).
Qed.

Lemma updateNote_found (req : Request) (db : Db) (i : ObjectId) (n : ProjectNote) :
  noteId (params req) = Some i → notes db !! i = Some n →
  let n' := setContent (default JUndefined (body req !! "content")) n in
  let db' := set_notes (λ _, <[i := n']> (notes db)) db in
  updateNote req db =
    (Respond 200 (ApiResponse.new 200 (populate db' (i, n'))
                    (Some "Note updated successfully")), db').
Proof.
  intros Hid Hn. unfold updateNote, Model.findByIdAndUpdate.
  by rewrite Hid, (findById_Some _ _ _ Hn).
Qed.

(** C9: [getNoteById], [updateNote] and [deleteNote] depend on the
    request only through [noteId] (and, for the update, [content]): two
    requests that differ in [projectId] get the same answer and leave
    the same database.  Hence a note is read, rewritten or removed by
    its id alone, whatever project the request names and whatever
    project the note belongs to: the read returns it, the delete removes
    it, and the update stores the [content] of the body in it (a body
    without [content] leaves it as it is). *)
Theorem note_operations_ignore_projectId (req1 req2 : Request) (db : Db) :
  noteId (params req1) = noteId (params req2) →
  (getNoteById req1 db = getNoteById req2 db
   ∧ deleteNote req1 db = deleteNote req2 db
   ∧ (body req1 !! "content" = body req2 !! "content" →
      updateNote req1 db = updateNote req2 db))
  ∧ (∀ i n, noteId (params req1) = Some i → notes db !! i = Some n →
       (getNoteById req1 db).1 =
         Respond 200 (ApiResponse.new 200 (populate db (i, n))
                        (Some "Note fetched successfully"))
       ∧ notes (deleteNote req1 db).2 !! i = None
       ∧ (∀ c, body req1 !! "content" = Some c → c ≠ JUndefined →
            notes (updateNote req1 db).2 !! i =
              Some {| project := project n; content := c;
                      createdBy := createdBy n |})
       ∧ (body req1 !! "content" = None →
            notes (updateNote req1 db).2 !! i = Some n)).
Proof.
  intros Hid. split; [repeat split|].
  - unfold getNoteById. by rewrite Hid.
  - unfold deleteNote. by rewrite Hid.
  - intros Hcontent. unfold updateNote. by rewrite Hid, Hcontent.
  - intros i n Hi Hn. split; [|split; [|split]].
    + by rewrite (getNoteById_found _ _ _ _ Hi Hn).
    + rewrite (deleteNote_found _ _ _ _ Hi Hn). simpl.
      apply lookup_delete_eq.
    + intros c Hc Hdef. rewrite (updateNote_found _ _ _ _ Hi Hn). simpl.
      rewrite lookup_insert_eq, Hc. simpl. by destruct c.
    + intros Hc. rewrite (updateNote_found _ _ _ _ Hi Hn). simpl.
      by rewrite lookup_insert_eq, Hc.
Qed.

End NoteControllers.



(** The note [n1] of project [p2] is removed by a request that names
    project [p1]. *)
Lemma note_operations_ignore_projectId_witness :
  project Scenario.note1 ≠ Scenario.p1
  ∧ notes (@NoteControllers.deleteNote Scenario.engine
             (Scenario.request Scenario.p1 (Some Scenario.n1) JUndefined None (Some Scenario.u1))
             Scenario.db).2 !! Scenario.n1 = None.
Proof.
  split; [discriminate|].
  apply (proj2 (@note_operations_ignore_projectId Scenario.engine
                  (Scenario.request Scenario.p1 (Some Scenario.n1) JUndefined None (Some Scenario.u1))
                  (Scenario.request Scenario.p2 (Some Scenario.n1) JUndefined None (Some Scenario.u1))
                  Scenario.db eq_refl) Scenario.n1 Scenario.note1); reflexivity.
Defined.

(** ** The note router *)
Section NoteRouter.
Import NoteRoutes.

(** The chain of each method on each of the two paths, and of any
    other path. *)
Lemma dispatch_project (method : Method) :
  dispatch router method "/:projectId" =
    verifyJWT ::
    match method with
    | GET | HEAD => [validateProjectPermission AvailableUserRoles; getNotes]
    | POST => [validateProjectPermission [ADMIN]; notesValidator; validate; createNote]
    | _ => []
    end.
Proof. by destruct method. Qed.

Lemma dispatch_note (method : Method) :
  dispatch router method "/:projectId/n/:noteId" =
    verifyJWT ::
    match method with
    | GET | HEAD => [validateProjectPermission AvailableUserRoles; getNoteById]
    | PUT => [validateProjectPermission [ADMIN]; notesValidator; validate; updateNote]
    | DELETE => [validateProjectPermission [ADMIN]; deleteNote]
    | _ => []
    end.
Proof. by destruct method. Qed.

Lemma dispatch_other (method : Method) (path : string) :
  path ≠ "/:projectId" → path ≠ "/:projectId/n/:noteId" →
  dispatch router method path = [verifyJWT].
Proof.
  intros H1 H2. simpl.
  rewrite !bool_decide_eq_false_2 by congruence. done.
Qed.

(** Every chain is one of four shapes. *)
Lemma dispatch_shapes (method : Method) (path : string) :
  (∃ h, dispatch router method path =
          [verifyJWT; validateProjectPermission AvailableUserRoles; h]
        ∧ isValidator h = false)
  ∨ (∃ h, dispatch router method path =
            [verifyJWT; validateProjectPermission [ADMIN];
             notesValidator; validate; h])
  ∨ dispatch router method path =
      [verifyJWT; validateProjectPermission [ADMIN]; deleteNote]
  ∨ dispatch router method path = [verifyJWT].
Proof.
  destruct (decide (path = "/:projectId")) as [->|H1];
    [rewrite dispatch_project; destruct method; eauto 8|].
  destruct (decide (path = "/:projectId/n/:noteId")) as [->|H2];
    [rewrite dispatch_note; destruct method; eauto 8|].
  rewrite dispatch_other by done. eauto 8.
Qed.

(** C5: every request to the note router starts with [verifyJWT]; on
    the routes of the table, the mutating ones (POST, PUT, DELETE)
    declare exactly the role set [[ADMIN]] and the reading ones (GET)
    declare [AvailableUserRoles]; and the table has no other route. *)
Theorem note_routes_declared_roles (method : Method) (path : string) :
  head (dispatch router method path) = Some verifyJWT
  ∧ ((method, path) ∈ routes →
     allowedRoles (dispatch router method path) =
       [if mutating method then [ADMIN] else AvailableUserRoles])
  ∧ ((method, path) ∉ routes →
     dispatch router method path = [verifyJWT]).
Proof.
  split; [|split].
  - reflexivity.
  - unfold routes. rewrite !elem_of_cons, elem_of_nil.
    intros [[= -> ->]|[[= -> ->]|[[= -> ->]|[[= -> ->]|[[= -> ->]
           |[[= -> ->]|[[= -> ->]|[]]]]]]]];
      reflexivity.
  - unfold routes. rewrite !not_elem_of_cons.
    intros (H1 & H2 & H3 & H4 & H5 & H6 & H7 & _).
    destruct (decide (path = "/:projectId")) as [->|Hp];
      [rewrite dispatch_project; by destruct method|].
    destruct (decide (path = "/:projectId/n/:noteId")) as [->|Hn];
      [rewrite dispatch_note; by destruct method|].
    by apply dispatch_other.
Qed.

Context `{Engine} `{Middleware.Imported}.

Lemma passes_Next (m : Middleware.t) (req : Request) (db : Db) :
  Middleware.passes m req db = true →
  ∃ req' db', m req db = (Middleware.Next req', db').
Proof.
  unfold Middleware.passes.
  destruct (m req db) as [[req'| |] db']; [eauto | done | done].
Qed.

(** A chain whose first function does not call [next()] stops there. *)
Lemma run_stops (f : Stage) (rest : list Stage) (req : Request) (db : Db) :
  Middleware.passes (exec f) req db = false →
  (run (f :: rest) req db).1.1 = [f].
Proof.
  unfold Middleware.passes. simpl.
  by destruct (exec f req db) as [[req'| |] db'].
Qed.

Lemma run_cons_Next (f : Stage) (rest : list Stage) (req req' : Request) (db db' : Db) :
  exec f req db = (Middleware.Next req', db') →
  (run (f :: rest) req db).1.1 = f :: (run rest req' db').1.1.
Proof.
  intros Hf. simpl. rewrite Hf.
  by destruct (run rest req' db') as [[trace o] db''].
Qed.

(** The invoked functions are a prefix of the chain. *)
Lemma run_prefix (chain : list Stage) (req : Request) (db : Db) :
  (run chain req db).1.1 `prefix_of` chain.
Proof.
  revert req db. induction chain as [|f rest IH]; intros req db; [done|].
  destruct (exec f req db) as [[req'| |] db'] eqn:Hf.
  - rewrite (run_cons_Next _ _ _ _ _ _ Hf). by apply prefix_cons.
  - simpl. rewrite Hf. simpl. by apply prefix_cons, prefix_nil.
  - simpl. rewrite Hf. simpl. by apply prefix_cons, prefix_nil.
Qed.

Lemma run_cons_cases (f : Stage) (rest : list Stage) (req : Request) (db : Db) :
  (Middleware.passes (exec f) req db = false
   ∧ (run (f :: rest) req db).1.1 = [f])
  ∨ (∃ req' db', exec f req db = (Middleware.Next req', db')
     ∧ (run (f :: rest) req db).1.1 = f :: (run rest req' db').1.1).
Proof.
  destruct (Middleware.passes (exec f) req db) eqn:Hp.
  - right. apply passes_Next in Hp as (req' & db' & Hf).
    exists req', db'. split; [done|]. by apply run_cons_Next.
  - left. split; [done|]. by apply run_stops.
Qed.

Lemma validatorCalls_prefix (l1 l2 : list Stage) :
  l1 `prefix_of` l2 → (validatorCalls l1 ≤ validatorCalls l2)%nat.
Proof.
  intros [k ->]. unfold validatorCalls.
  rewrite List.filter_app, length_app. lia.
Qed.

Lemma validatorCalls_reading (roles : list UserRole) (h : Stage) :
  isValidator h = false →
  validatorCalls [validateProjectPermission roles; h] = 0%nat.
Proof. intros Hh. unfold validatorCalls. simpl. by rewrite Hh. Qed.

(** C3: on every request to the note router, the validators
    ([notesValidator], [validate]) are invoked only after [verifyJWT]
    and [validateProjectPermission] have both called [next()]; when
    [verifyJWT] does not, the number of validator invocations is 0.
    This holds whatever the imported middlewares do. *)
Theorem validators_only_after_gate
    (method : Method) (path : string) (req : Request) (db : Db) :
  let trace := (run (dispatch router method path) req db).1.1 in
  (Middleware.passes Middleware.verifyJWT req db = false →
     validatorCalls trace = 0%nat)
  ∧ (validatorCalls trace ≠ 0%nat →
     ∃ req1 db1 req2 db2,
       Middleware.verifyJWT req db = (Middleware.Next req1, db1)
       ∧ Middleware.validateProjectPermission [ADMIN] req1 db1
         = (Middleware.Next req2, db2)).
Proof.
  intros trace. subst trace. split.
  - intros Hfail.
    destruct (dispatch_shapes method path)
      as [(h & -> & _)|[(h & ->)|[->| ->]]];
      by rewrite run_stops.
  - intros Hcalls.
    assert (Hjwt : ∃ rest req1 db1,
               dispatch router method path = verifyJWT :: rest
               ∧ Middleware.verifyJWT req db = (Middleware.Next req1, db1)
               ∧ validatorCalls (run rest req1 db1).1.1 ≠ 0%nat).
    { destruct (dispatch_shapes method path)
        as [(h & Hd & _)|[(h & Hd)|[Hd|Hd]]];
        rewrite Hd in Hcalls |- *;
        (destruct (run_cons_cases verifyJWT
                     (tail (dispatch router method path)) req db)
           as [[_ Htr]|(req1 & db1 & Hf & Htr)];
         rewrite Hd in Htr; simpl tail in Htr; rewrite Htr in Hcalls;
         [done | eauto 6]). }
    destruct Hjwt as (rest & req1 & db1 & Hd & Hf & Hrest).
    exists req1, db1.
    destruct (dispatch_shapes method path)
      as [(h & Hd' & Hh)|[(h & Hd')|[Hd'|Hd']]];
      rewrite Hd' in Hd; injection Hd as <-.
    + (* a reading route: no validator in the chain *)
      exfalso. apply Hrest.
      pose proof (validatorCalls_prefix _ _
                    (run_prefix [validateProjectPermission AvailableUserRoles; h]
                       req1 db1)) as Hle.
      rewrite (validatorCalls_reading _ _ Hh) in Hle. lia.
    + destruct (run_cons_cases (validateProjectPermission [ADMIN])
                  [notesValidator; validate; h] req1 db1)
        as [[_ Htr]|(req2 & db2 & Hperm & _)].
      * rewrite Htr in Hrest. done.
      * eauto.
    + destruct (run_cons_cases (validateProjectPermission [ADMIN])
                  [deleteNote] req1 db1)
        as [[_ Htr]|(req2 & db2 & Hperm & _)].
      * rewrite Htr in Hrest. done.
      * eauto.
    + done.
Qed.

End NoteRouter.

Lemma note_routes_declared_roles_witness :
  NoteRoutes.allowedRoles
    (NoteRoutes.dispatch NoteRoutes.router NoteRoutes.POST "/:projectId") = [[ADMIN]].
Proof.
  apply (proj1 (proj2 (note_routes_declared_roles NoteRoutes.POST "/:projectId"))).
  unfold NoteRoutes.routes. apply list_elem_of_further, list_elem_of_here.
Defined.

(** An expired token: [verifyJWT] rejects, no validator runs.  A valid
    token of an administrator: the validators run, after both gates. *)
Lemma validators_only_after_gate_witness :
  NoteRoutes.validatorCalls
    (@NoteRoutes.run Scenario.engine Scenario.middlewares
       (NoteRoutes.dispatch NoteRoutes.router NoteRoutes.POST "/:projectId")
       (Scenario.request Scenario.p1 None (JStr "hello") (Some "old") None)
       Scenario.db).1.1 = 0%nat
  ∧ ∃ req1 db1 req2 db2,
      @Middleware.verifyJWT Scenario.middlewares
        (Scenario.request Scenario.p1 None (JStr "hello") (Some "good") None) Scenario.db
        = (Middleware.Next req1, db1)
      ∧ @Middleware.validateProjectPermission Scenario.middlewares [ADMIN] req1 db1
        = (Middleware.Next req2, db2).
Proof.
  split.
  - apply (proj1 (@validators_only_after_gate Scenario.engine Scenario.middlewares
                    NoteRoutes.POST "/:projectId"
                    (Scenario.request Scenario.p1 None (JStr "hello") (Some "old") None)
                    Scenario.db)).
    reflexivity.
  - apply (proj2 (@validators_only_after_gate Scenario.engine Scenario.middlewares
                    NoteRoutes.POST "/:projectId"
                    (Scenario.request Scenario.p1 None (JStr "hello") (Some "good") None)
                    Scenario.db)).
    vm_compute. discriminate.
Defined.

(** The whole pipeline on the scenario: with alice's token, deleting
    through project [p1] the note [n1] of project [p2] is answered 200 and
    the note is gone; with the expired token the answer is 401 and the
    database is untouched. *)
Example handle_delete_across_projects :
  let '(r, db') :=
    @NoteRoutes.handle Scenario.engine Scenario.middlewares (Some "production")
      NoteRoutes.DELETE "/:projectId/n/:noteId"
      (Scenario.request Scenario.p1 (Some Scenario.n1) JUndefined (Some "good") None) Scenario.db in
  status <$> r = Some 200%Z ∧ notes db' = ∅.
Proof. vm_compute. split; reflexivity. Qed.

Example handle_expired_token :
  @NoteRoutes.handle Scenario.engine Scenario.middlewares (Some "production")
    NoteRoutes.DELETE "/:projectId/n/:noteId"
    (Scenario.request Scenario.p1 (Some Scenario.n1) JUndefined (Some "old") None) Scenario.db
  = (Some (@errorHandler Scenario.engine (Some "production")
             (ThrownApiError (@ApiError.new Scenario.engine 401
                                (Some "Unauthorized request") None None))),
     Scenario.db).
Proof. reflexivity. Qed.

(** ** The credential verifier and the permission gate *)
Section GateProperties.
Import Gate.

Lemma authorize_db (identity projectId : ObjectId)
    (allowedRoles : list UserRole) (db : Db) :
  (authorize identity projectId allowedRoles db).2 = db.
Proof.
  unfold authorize.
  destruct (resolveMembership identity projectId db) as [role|]; [|done].
  by case_bool_decide.
Qed.

Lemma authorize_decision (identity projectId : ObjectId)
    (allowedRoles : list UserRole) (db : Db) :
  (authorize identity projectId allowedRoles db).1 =
    match members db !! (identity, projectId) with
    | None => Deny NotAMember
    | Some role =>
        if bool_decide (role ∈ allowedRoles) then Allow role
        else Deny InsufficientRole
    end.
Proof.
  unfold authorize, resolveMembership.
  destruct (members db !! (identity, projectId)) as [role|]; [|done].
  by case_bool_decide.
Qed.

(** C1: [authorize] returns [Allow role] exactly when the membership of
    (identity, projectId) exists with that role and the role is among
    [allowedRoles]; without a membership it returns [Deny NotAMember],
    with a role outside [allowedRoles] it returns
    [Deny InsufficientRole]; so whenever the condition fails the result
    is a [Deny]. *)
Theorem authorize_allow_iff (identity projectId : ObjectId)
    (allowedRoles : list UserRole) (db : Db) :
  let decision := (authorize identity projectId allowedRoles db).1 in
  (∀ role, decision = Allow role ↔
           members db !! (identity, projectId) = Some role ∧ role ∈ allowedRoles)
  ∧ (members db !! (identity, projectId) = None → decision = Deny NotAMember)
  ∧ (∀ role, members db !! (identity, projectId) = Some role →
             role ∉ allowedRoles → decision = Deny InsufficientRole)
  ∧ ((¬ ∃ role, members db !! (identity, projectId) = Some role
                ∧ role ∈ allowedRoles) →
     ∃ reason, decision = Deny reason).
Proof.
  intros decision. subst decision. rewrite authorize_decision.
  destruct (members db !! (identity, projectId)) as [r|] eqn:Hm.
  - case_bool_decide as Hin.
    + split; [|split; [|split]].
      * intros role. split; [by intros [= <-] | by intros [[= <-] _]].
      * done.
      * intros role [= <-] Hout. done.
      * intros Hno. exfalso. apply Hno. eauto.
    + split; [|split; [|split]].
      * intros role. split; [done | by intros [[= <-] Hin']].
      * done.
      * done.
      * eauto.
  - split; [|split; [|split]].
    + intros role. split; [done | by intros [? _]].
    + done.
    + done.
    + eauto.
Qed.

(** C7: [authorize] returns the database it was given; a second call
    right after the first gives the same decision; and so does any
    later call on a database with the same membership table. *)
Theorem authorize_idempotent (identity projectId : ObjectId)
    (allowedRoles : list UserRole) (db : Db) :
  (authorize identity projectId allowedRoles db).2 = db
  ∧ (authorize identity projectId allowedRoles
       (authorize identity projectId allowedRoles db).2).1
    = (authorize identity projectId allowedRoles db).1
  ∧ (∀ db', members db' = members db →
       (authorize identity projectId allowedRoles db').1
       = (authorize identity projectId allowedRoles db).1).
Proof.
  split; [apply authorize_db | split].
  - by rewrite authorize_db.
  - intros db' Hsame. by rewrite !authorize_decision, Hsame.
Qed.

Context `{KeySource}.

(** C4: a missing token, a malformed one, one with a wrong signature
    and an expired one all make the verifier fail with
    [Unauthenticated]; the verifier has no other failure; and it
    answers a malformed token and an expired token alike. *)
Theorem verify_fails_unauthenticated (now : Z) :
  verify now None = inr Unauthenticated
  ∧ (∀ s, decode s = None → verify now (Some s) = inr Unauthenticated)
  ∧ (∀ s claims signature, decode s = Some (claims, signature) →
       signature ≠ sign claims → verify now (Some s) = inr Unauthenticated)
  ∧ (∀ s claims signature, decode s = Some (claims, signature) →
       (exp claims ≤ now)%Z → verify now (Some s) = inr Unauthenticated)
  ∧ (∀ token e, verify now token = inr e → e = Unauthenticated)
  ∧ (∀ s1 s2 claims signature,
       decode s1 = None →
       decode s2 = Some (claims, signature) → (exp claims ≤ now)%Z →
       verify now (Some s1) = verify now (Some s2)).
Proof.
  assert (Hexpired : ∀ s claims signature,
             decode s = Some (claims, signature) → (exp claims ≤ now)%Z →
             verify now (Some s) = inr Unauthenticated).
  { intros s claims signature Hd Hexp. unfold verify. rewrite Hd.
    destruct (negb (String.eqb signature (sign claims))); [done|].
    by rewrite (proj2 (Z.leb_le _ _) Hexp). }
  assert (Hmalformed : ∀ s, decode s = None →
             verify now (Some s) = inr Unauthenticated).
  { intros s Hd. unfold verify. by rewrite Hd. }
  repeat split; try done.
  - intros s claims signature Hd Hsig. unfold verify. rewrite Hd.
    by rewrite (proj2 (String.eqb_neq _ _) Hsig).
  - intros token e. unfold verify.
    destruct token as [s|]; [|by intros [= <-]].
    destruct (decode s) as [[claims signature]|]; [|by intros [= <-]].
    destruct (negb _); [by intros [= <-]|].
    destruct (_ <=? _)%Z; [by intros [= <-]|done].
  - intros s1 s2 claims signature Hd1 Hd2 Hexp.
    by rewrite (Hmalformed _ Hd1), (Hexpired _ _ _ Hd2 Hexp).
Qed.

End GateProperties.

(** Bob is a plain member of [p1]: a route for administrators denies him,
    a route for every role allows him; alice has no membership in [p2]. *)
Lemma authorize_allow_iff_witness :
  (Gate.authorize Scenario.u2 Scenario.p1 AvailableUserRoles Scenario.db).1 = Gate.Allow MEMBER
  ∧ (Gate.authorize Scenario.u2 Scenario.p1 [ADMIN] Scenario.db).1 = Gate.Deny Gate.InsufficientRole
  ∧ (Gate.authorize Scenario.u1 Scenario.p2 AvailableUserRoles Scenario.db).1
    = Gate.Deny Gate.NotAMember.
Proof.
  split; [|split].
  - apply (proj1 (authorize_allow_iff Scenario.u2 Scenario.p1 AvailableUserRoles Scenario.db)).
    split; [reflexivity|]. unfold AvailableUserRoles.
    apply list_elem_of_further, list_elem_of_further, list_elem_of_here.
  - apply (proj1 (proj2 (proj2 (authorize_allow_iff Scenario.u2 Scenario.p1 [ADMIN] Scenario.db)))
             MEMBER); [reflexivity|].
    intros [=]%list_elem_of_singleton.
  - apply (proj1 (proj2 (authorize_allow_iff Scenario.u1 Scenario.p2 AvailableUserRoles Scenario.db))).
    reflexivity.
Defined.

(** Deleting a note changes the database but not the memberships: the
    decision stays. *)
Lemma authorize_idempotent_witness :
  (Gate.authorize Scenario.u1 Scenario.p1 [ADMIN]
     (set_notes (λ _, ∅) Scenario.db)).1
  = (Gate.authorize Scenario.u1 Scenario.p1 [ADMIN] Scenario.db).1.
Proof.
  apply (proj2 (proj2 (authorize_idempotent Scenario.u1 Scenario.p1 [ADMIN] Scenario.db))).
  reflexivity.
Defined.

(** The malformed token ["junk"] and the expired token ["old"] get the
    same answer. *)
Lemma verify_fails_unauthenticated_witness :
  @Gate.verify Scenario.keys Scenario.now (Some "junk")
  = @Gate.verify Scenario.keys Scenario.now (Some "old").
Proof.
  apply (proj2 (proj2 (proj2 (proj2 (proj2
           (@verify_fails_unauthenticated Scenario.keys Scenario.now)))))
           "junk" "old" {| Gate.identity := Scenario.u1; Gate.exp := 10 |} ("sig:" +:+ Scenario.u1)).
  - reflexivity.
  - reflexivity.
  - unfold Scenario.now. simpl. lia.
Defined.

(** * Further properties of the code *)

(** ** The note controllers: what they write and what they leave *)
Section NoteControllersWrites.
Context `{Engine}.
Import NoteControllers.

Lemma newObjectId_fresh {A} (c : gmap ObjectId A) :
  c !! Model.newObjectId (dom c) = None.
Proof.
  apply not_elem_of_dom. unfold Model.newObjectId.
  destruct (List.find _ _) as [i|] eqn:Hfind.
  - apply List.find_some in Hfind as [_ Hfree].
    by apply bool_decide_eq_true in Hfree.
  - apply is_fresh.
Qed.

Lemma createNote_created (req : Request) (db : Db) (p : JsVal) (uid : ObjectId) :
  projects db !! projectId (params req) = Some p →
  user req = Some uid →
  let i := Model.newObjectId (dom (notes db)) in
  let n := {| project := projectId (params req);
              content := default JUndefined (body req !! "content");
              createdBy := uid |} in
  let db' := set_notes (λ _, <[i := n]> (notes db)) db in
  createNote req db =
    (Respond 201 (ApiResponse.new 201 (populate db' (i, n))
                    (Some "Note created successfully")), db').
Proof.
  intros Hp Hu. unfold createNote, Model.create.
  rewrite (findById_Some _ _ _ Hp), Hu. cbn [fst snd notes set_notes].
  by rewrite (findById_Some _ _ _ (lookup_insert_eq _ _ _)).
Qed.

(** The outcome of each controller, by cases on what the request finds:
    without the project, or without the note, the controllers throw and
    leave the database; which error they throw depends on the id
    alone. *)
Lemma project_cases (req : Request) (db : Db) :
  (∃ e, getNotes req db = (Throw e, db) ∧ createNote req db = (Throw e, db))
  ∨ (∃ p, projects db !! projectId (params req) = Some p).
Proof.
  destruct (projects db !! projectId (params req)) as [p|] eqn:Hp; [eauto|].
  left. unfold getNotes, createNote. rewrite (findById_missing _ _ Hp).
  destruct (Model.isValidObjectId _); eauto.
Qed.

Lemma createNote_cases (req : Request) (db : Db) :
  (∃ e, createNote req db = (Throw e, db))
  ∨ (∃ p uid, projects db !! projectId (params req) = Some p ∧ user req = Some uid).
Proof.
  destruct (project_cases req db) as [(e & _ & He)|[p Hp]]; [eauto|].
  destruct (user req) as [uid|] eqn:Hu; [eauto|].
  left. unfold createNote. rewrite (findById_Some _ _ _ Hp), Hu. eauto.
Qed.

Lemma note_cases (req : Request) (db : Db) :
  (∃ e, (∀ i, noteId (params req) = Some i → notes db !! i = None)
        ∧ (∀ req', noteId (params req') = noteId (params req) →
             updateNote req' db = (Throw e, db)
             ∧ deleteNote req' db = (Throw e, db)
             ∧ getNoteById req' db = (Throw e, db))
        ∧ ((∀ i, noteId (params req) = Some i → Model.isValidObjectId i = true) →
           Throw e = notFound "Note not found"))
  ∨ (∃ i n, noteId (params req) = Some i ∧ notes db !! i = Some n).
Proof.
  destruct (noteId (params req)) as [i|] eqn:Hi.
  - destruct (notes db !! i) as [n|] eqn:Hn; [eauto|].
    left. destruct (Model.isValidObjectId i) eqn:Hvalid.
    + eexists. split; [by intros ? [= <-]|]. split; [|reflexivity].
      intros req' Hreq'.
      unfold updateNote, deleteNote, getNoteById, Model.findByIdAndDelete.
      rewrite Hreq', (findById_None _ _ Hvalid Hn). by rewrite set_notes_id.
    + exists (castError "ProjectNote" i).
      split; [by intros ? [= <-]|]. split.
      * intros req' Hreq'.
        unfold updateNote, deleteNote, getNoteById, Model.findByIdAndDelete.
        rewrite Hreq', (findById_Rejects _ _ Hvalid Hn). by rewrite set_notes_id.
      * intros Hall. rewrite (Hall i eq_refl) in Hvalid. discriminate.
  - left. eexists. split; [done|]. split; [|reflexivity].
    intros req' Hreq'.
    unfold updateNote, deleteNote, getNoteById, Model.findByIdAndDelete.
    rewrite Hreq'. simpl. by rewrite set_notes_id.
Qed.

(** X1: the two reading controllers never change the database, whatever
    the request and whatever they answer. *)
Theorem read_controllers_leave_db (req : Request) (db : Db) :
  (getNotes req db).2 = db ∧ (getNoteById req db).2 = db.
Proof.
  split.
  - unfold getNotes.
    by destruct (Model.findById (Some (projectId (params req))) (projects db))
      as [[?|]|?].
  - unfold getNoteById.
    by destruct (Model.findById (noteId (params req)) (notes db)) as [[?|]|?].
Qed.

(** X2: no controller touches the projects, the users or the
    memberships: the three writing controllers change the note collection
    only. *)
Theorem controllers_write_notes_only (req : Request) (db : Db) :
  Forall (λ db', projects db' = projects db ∧ users db' = users db
                 ∧ members db' = members db)
    [(createNote req db).2; (updateNote req db).2; (deleteNote req db).2].
Proof.
  repeat apply Forall_cons_2; [| | |apply Forall_nil_2].
  - destruct (createNote_cases req db) as [[e ->]|(p & uid & Hp & Hu)]; [done|].
    by rewrite (createNote_created _ _ _ _ Hp Hu).
  - destruct (note_cases req db) as [(e & _ & He & _)|(i & n & Hi & Hn)].
    + by destruct (He req eq_refl) as (-> & _ & _).
    + by rewrite (updateNote_found _ _ _ _ Hi Hn).
  - destruct (note_cases req db) as [(e & _ & He & _)|(i & n & Hi & Hn)].
    + by destruct (He req eq_refl) as (_ & -> & _).
    + by rewrite (deleteNote_found _ _ _ _ Hi Hn).
Qed.

(** X3: a controller that throws has written nothing: the database is
    the one it was given. *)
Theorem throwing_controller_writes_nothing (req : Request) (db : Db) (e : Thrown) :
  ((getNotes req db).1 = Throw e → (getNotes req db).2 = db)
  ∧ ((createNote req db).1 = Throw e → (createNote req db).2 = db)
  ∧ ((updateNote req db).1 = Throw e → (updateNote req db).2 = db)
  ∧ ((deleteNote req db).1 = Throw e → (deleteNote req db).2 = db)
  ∧ ((getNoteById req db).1 = Throw e → (getNoteById req db).2 = db).
Proof.
  repeat split.
  - intros _. apply read_controllers_leave_db.
  - destruct (createNote_cases req db) as [[e' ->]|(p & uid & Hp & Hu)]; [done|].
    by rewrite (createNote_created _ _ _ _ Hp Hu).
  - destruct (note_cases req db) as [(e' & _ & He & _)|(i & n & Hi & Hn)].
    + by destruct (He req eq_refl) as (-> & _ & _).
    + by rewrite (updateNote_found _ _ _ _ Hi Hn).
  - destruct (note_cases req db) as [(e' & _ & He & _)|(i & n & Hi & Hn)].
    + by destruct (He req eq_refl) as (_ & -> & _).
    + by rewrite (deleteNote_found _ _ _ _ Hi Hn).
  - intros _. apply read_controllers_leave_db.
Qed.

(** X4: when the project exists and a user is attached, [createNote]
    answers 201 and stores exactly one new note, under an id no note had
    before: the note carries the project of the path, the content of the
    body and the caller as author, and every note that was there is still
    there, unchanged. *)
Theorem createNote_adds_one_note (req : Request) (db : Db) (p : JsVal) (uid : ObjectId) :
  projects db !! projectId (params req) = Some p →
  user req = Some uid →
  let i := Model.newObjectId (dom (notes db)) in
  let n := {| project := projectId (params req);
              content := default JUndefined (body req !! "content");
              createdBy := uid |} in
  let db' := (createNote req db).2 in
  notes db !! i = None
  ∧ notes db' = <[i := n]> (notes db)
  ∧ (∀ j m, notes db !! j = Some m → notes db' !! j = Some m)
  ∧ size (notes db') = S (size (notes db))
  ∧ ∃ d, (createNote req db).1 =
           Respond 201 (ApiResponse.new 201 d (Some "Note created successfully")).
Proof.
  intros Hp Hu i n db'. subst db'.
  rewrite (createNote_created _ _ _ _ Hp Hu). simpl.
  pose proof (newObjectId_fresh (notes db)) as Hfresh.
  split; [done|]. split; [done|]. split; [|split].
  - intros j m Hj. rewrite lookup_insert_ne; [done|].
    intros <-. fold i in Hj. subst i. by rewrite Hfresh in Hj.
  - by apply map_size_insert_None.
  - eauto.
Qed.

(** X5: a note that [createNote] has just stored is found by
    [getNoteById] under its new id, and the read returns the same
    document (author populated) that the creation answered with. *)
Theorem createNote_then_getNoteById
    (req req' : Request) (db : Db) (p : JsVal) (uid : ObjectId) :
  projects db !! projectId (params req) = Some p →
  user req = Some uid →
  noteId (params req') = Some (Model.newObjectId (dom (notes db))) →
  ∃ d, (createNote req db).1 =
         Respond 201 (ApiResponse.new 201 d (Some "Note created successfully"))
       ∧ getNoteById req' (createNote req db).2 =
           (Respond 200 (ApiResponse.new 200 d (Some "Note fetched successfully")),
            (createNote req db).2).
Proof.
  intros Hp Hu Hid.
  rewrite (createNote_created _ _ _ _ Hp Hu). simpl.
  eexists. split; [reflexivity|].
  erewrite getNoteById_found; [reflexivity | exact Hid |].
  simpl. by rewrite lookup_insert_eq.
Qed.



(** X7: what [updateNote] answers is what a read sees afterwards:
    [getNoteById] on the same [noteId] returns the document of the
    update's answer, or the same 404 when the update found no note. *)
Theorem updateNote_then_getNoteById (req req' : Request) (db : Db) :
  noteId (params req') = noteId (params req) →
  (getNoteById req' (updateNote req db).2).1 =
    match (updateNote req db).1 with
    | Respond _ b =>
        Respond 200 (ApiResponse.new 200 (ApiResponse.data b)
                       (Some "Note fetched successfully"))
    | Throw e => Throw e
    end.
Proof.
  intros Hid.
  destruct (note_cases req db) as [(e & _ & He & _)|(i & n & Hi & Hn)].
  - destruct (He req eq_refl) as (-> & _ & _). simpl.
    by destruct (He req' Hid) as (_ & _ & ->).
  - rewrite (updateNote_found _ _ _ _ Hi Hn). simpl.
    erewrite getNoteById_found;
      [reflexivity | by rewrite Hid | simpl; apply lookup_insert_eq].
Qed.


(** The documents a [find] returns are exactly the stored documents that
    satisfy the filter, each once. *)
Lemma find_spec {A} (P : A → bool) (c : gmap ObjectId A) :
  NoDup (Model.find P c)
  ∧ ∀ i d, (i, d) ∈ Model.find P c ↔ c !! i = Some d ∧ P d = true.
Proof.
  unfold Model.find. split.
  - apply NoDup_ListNoDup, List.NoDup_filter, NoDup_ListNoDup, NoDup_map_to_list.
  - intros i d. rewrite list_elem_of_In, List.filter_In, <- list_elem_of_In.
    by rewrite elem_of_map_to_list.
Qed.

Lemma getNotes_found_list (req : Request) (db : Db) (p : JsVal) :
  projects db !! projectId (params req) = Some p →
  ∃ found,
    getNotes req db =
      (Respond 200 (ApiResponse.new 200 (JArr (populate db <$> found))
                      (Some "Notes fetched successfully")), db)
    ∧ ∀ i n, (i, n) ∈ found ↔
             notes db !! i = Some n ∧ project n = projectId (params req).
Proof.
  intros Hp. unfold getNotes. rewrite (findById_Some _ _ _ Hp).
  eexists. split; [reflexivity|].
  destruct (find_spec (λ n, bool_decide (project n = projectId (params req)))
              (notes db)) as [_ Hin].
  intros i n. rewrite Hin. by rewrite bool_decide_eq_true.
Qed.

(** X9: for a project that exists, [getNotes] answers 200 with the
    notes of that project and no other: the array is the populated image
    of a list that holds, each once, exactly the stored notes whose
    [project] is the [projectId] of the path. *)
Theorem getNotes_lists_the_project (req : Request) (db : Db) (p : JsVal) :
  projects db !! projectId (params req) = Some p →
  ∃ found,
    getNotes req db =
      (Respond 200 (ApiResponse.new 200 (JArr (populate db <$> found))
                      (Some "Notes fetched successfully")), db)
    ∧ NoDup found
    ∧ ∀ i n, (i, n) ∈ found ↔
             notes db !! i = Some n ∧ project n = projectId (params req).
Proof.
  intros Hp. unfold getNotes. rewrite (findById_Some _ _ _ Hp).
  eexists. split; [reflexivity|].
  destruct (find_spec (λ n, bool_decide (project n = projectId (params req)))
              (notes db)) as [Hnodup Hin].
  split; [exact Hnodup|].
  intros i n. rewrite Hin. by rewrite bool_decide_eq_true.
Qed.

(** X10: a project that exists and has no note is answered 200 with an
    empty array, not with an error. *)
Theorem getNotes_of_empty_project (req : Request) (db : Db) (p : JsVal) :
  projects db !! projectId (params req) = Some p →
  (∀ i n, notes db !! i = Some n → project n ≠ projectId (params req)) →
  getNotes req db =
    (Respond 200 (ApiResponse.new 200 (JArr [])
                    (Some "Notes fetched successfully")), db).
Proof.
  intros Hp Hnone.
  destruct (getNotes_found_list req db p Hp) as (found & -> & Hin).
  assert (found = []) as ->; [|done].
  apply elem_of_nil_inv. intros [i n] Hx%Hin.
  destruct Hx as [Hn Hproj]. by apply (Hnone i n).
Qed.

(** X11: the query [getNotes] runs, after a successful [createNote]:
    for every project, it finds what it found before, plus the new note
    when the project is the one the note was created in. *)
Theorem createNote_then_find
    (req : Request) (db : Db) (p : JsVal) (uid q : ObjectId) :
  projects db !! projectId (params req) = Some p →
  user req = Some uid →
  let i := Model.newObjectId (dom (notes db)) in
  let n := {| project := projectId (params req);
              content := default JUndefined (body req !! "content");
              createdBy := uid |} in
  ∀ j m,
    (j, m) ∈ Model.find (λ x, bool_decide (project x = q))
               (notes (createNote req db).2)
    ↔ (j, m) ∈ Model.find (λ x, bool_decide (project x = q)) (notes db)
      ∨ (q = projectId (params req) ∧ j = i ∧ m = n).
Proof.
  intros Hp Hu i n j m.
  rewrite (createNote_created _ _ _ _ Hp Hu). simpl.
  pose proof (λ P c, proj2 (find_spec (A:=ProjectNote) P c)) as Hfind.
  rewrite !Hfind, !bool_decide_eq_true. clear Hfind.
  pose proof (newObjectId_fresh (notes db)) as Hfresh.
  rewrite lookup_insert_Some. fold i. split.
  - intros [[[<- <-] | [Hne Hm]] Hq]; [right | left]; done.
  - intros [[Hm Hq] | (-> & -> & ->)].
    + split; [|done]. right. split; [|done].
      intros <-. subst i. congruence.
    + split; [by left | done].
Qed.

(** X22: with an id that is no ObjectId (and so names no document), a
    controller throws the mongoose error of its query by id, which
    [errorHandler] answers 400, and leaves the database: [getNotes] and
    [createNote] for such a [projectId], [updateNote], [deleteNote] and
    [getNoteById] for such a [noteId]. *)
Theorem uncastable_id_is_400 (NODE_ENV : option string) (req : Request) (db : Db) :
  (Model.isValidObjectId (projectId (params req)) = false →
   projects db !! projectId (params req) = None →
   ∃ e, getNotes req db = (Throw (ThrownError e), db)
        ∧ createNote req db = (Throw (ThrownError e), db)
        ∧ NativeError.isMongooseError e = true
        ∧ status (errorHandler NODE_ENV (ThrownError e)) = 400)
  ∧ (∀ i, noteId (params req) = Some i →
     Model.isValidObjectId i = false → notes db !! i = None →
     ∃ e, updateNote req db = (Throw (ThrownError e), db)
          ∧ deleteNote req db = (Throw (ThrownError e), db)
          ∧ getNoteById req db = (Throw (ThrownError e), db)
          ∧ NativeError.isMongooseError e = true
          ∧ status (errorHandler NODE_ENV (ThrownError e)) = 400).
Proof.
  destruct (uncastable_id_rejects req db) as [Hproject Hnote]. split.
  - intros Hvalid Hnone. destruct (Hproject Hvalid Hnone) as [-> ->].
    eexists. repeat split.
  - intros i Hi Hvalid Hnone.
    destruct (Hnote i Hi Hvalid Hnone) as (-> & -> & ->).
    eexists. repeat split.
Qed.

End NoteControllersWrites.

(** ** The error boundary: what the answer holds *)
Section ErrorBoundaryBody.
Context `{Engine}.

(** X12: an error that is not an [ApiError] is answered 400 or 500 and
    nothing else: 400 exactly when it carries a truthy [statusCode] or is
    a mongoose error.  The [statusCode] it carries is never the status of
    the answer: an error with [statusCode] 404 or 503 is answered 400. *)
Theorem foreign_error_status (NODE_ENV : option string) (e : NativeError.t) :
  let r := errorHandler NODE_ENV (ThrownError e) in
  (status r = 400 ∨ status r = 500)
  ∧ (status r = 400 ↔
     truthy (NativeError.statusCode e) = true ∨ NativeError.isMongooseError e = true)
  ∧ (∀ n, NativeError.statusCode e = JNum n → n ≠ 0 → status r = 400).
Proof.
  intros r. subst r. rewrite errorHandler_status, normalize_foreign_status.
  split; [|split].
  - destruct (_ || _); auto.
  - rewrite <- orb_true_iff. destruct (_ || _); split; done.
  - intros n -> Hn. simpl. by rewrite (proj2 (Z.eqb_neq n 0) Hn).
Qed.

(** X13: the body of an error answer has the keys [statusCode], [data],
    [success], [errors] and [message], with [stack] besides in
    development, and no other key. *)
Theorem errorHandler_body_keys (NODE_ENV : option string) (err : Thrown) :
  dom (json (errorHandler NODE_ENV err)) =
    list_to_set ["statusCode"; "data"; "success"; "errors"; "message"]
    ∪ (if bool_decide (NODE_ENV = Some "development") then {["stack"]} else ∅).
Proof.
  unfold errorHandler, ApiError.ownEnumerable; simpl.
  case_bool_decide; rewrite !dom_insert_L, dom_empty_L; simpl;
    apply set_eq; intros k;
    rewrite !elem_of_union, !elem_of_singleton, !elem_of_empty; tauto.
Qed.

(** X14: the answer carries the message and the [errors] of the error:
    those of a thrown [ApiError] as they are; those of another error
    too, with ["Something went wrong"] for an empty message and the empty
    array for falsy [errors]. *)
Theorem errorHandler_message_and_errors (NODE_ENV : option string) :
  (∀ e : ApiError.t,
     let r := errorHandler NODE_ENV (ThrownApiError e) in
     json r !! "message" = Some (JStr (ApiError.message e))
     ∧ json r !! "errors" = Some (ApiError.errors e))
  ∧ (∀ e : NativeError.t,
       let r := errorHandler NODE_ENV (ThrownError e) in
       json r !! "message" =
         Some (JStr (if decide (NativeError.message e = "")
                     then "Something went wrong" else NativeError.message e))
       ∧ json r !! "errors" =
           Some (if truthy (NativeError.errors e)
                 then NativeError.errors e else JArr [])).
Proof.
  split.
  - intros e r.
    destruct (errorHandler_json_fields NODE_ENV (ThrownApiError e))
      as (_ & _ & _ & Herrors & Hmessage).
    done.
  - intros e r.
    destruct (errorHandler_json_fields NODE_ENV (ThrownError e))
      as (_ & _ & _ & Herrors & Hmessage).
    subst r. rewrite Herrors, Hmessage. simpl. split; [|done].
    destruct (decide (NativeError.message e = "")) as [->|Hne]; [done|].
    by rewrite (proj2 (String.eqb_neq _ _) Hne).
Qed.

(** X15: in development the answer shows the stack trace of the error
    that was thrown, when it has one: the trace of a foreign error is
    carried over into the answer, not replaced by that of the handler. *)
Theorem errorHandler_keeps_stack (e : NativeError.t) (trace : string) :
  NativeError.stack e = Some trace → trace ≠ "" →
  json (errorHandler (Some "development") (ThrownError e)) !! "stack"
    = Some (JStr trace).
Proof.
  intros Hstack Hne. rewrite errorHandler_json_stack. simpl.
  rewrite Hstack. simpl. by rewrite (proj2 (String.eqb_neq _ _) Hne).
Qed.

End ErrorBoundaryBody.

(** ** The router: when a controller runs *)
Section ControllersInTheRouter.
Context `{Engine} `{Middleware.Imported}.
Import NoteRoutes.

Lemma getNotes_cases (req : Request) (db : Db) :
  (∃ e, NoteControllers.getNotes req db = (Throw e, db))
  ∨ ∃ d, NoteControllers.getNotes req db =
           (Respond 200 (ApiResponse.new 200 d (Some "Notes fetched successfully")), db).
Proof.
  unfold NoteControllers.getNotes, NoteControllers.notFound.
  destruct (Model.findById _ (projects db)) as [[?|]|?]; eauto.
Qed.

(** X16: what a controller sends.  Wrapped in [asyncHandler], each of
    the five controllers either raises an error or sends an answer, and
    never calls [next()]; an answer it sends is 200 or 201, with that
    status repeated in the body and [success] true. *)
Theorem controller_outcomes (f : Stage) (req : Request) (db : Db) :
  isController f = true →
  match (exec f req db).1 with
  | Middleware.Next _ => False
  | Middleware.Sent r =>
      (status r = 200 ∨ status r = 201)
      ∧ json r !! "statusCode" = Some (JNum (status r))
      ∧ json r !! "success" = Some (JBool true)
  | Middleware.NextErr e => True
  end.
Proof.
  destruct f; try discriminate; intros _; unfold exec, Middleware.asyncHandler.
  - by destruct (getNotes_cases req db) as [[e ->]|[d ->]]; simpl; auto.
  - destruct (createNote_cases req db) as [[e ->]|(p & uid & Hp & Hu)];
      simpl; [done|].
    rewrite (createNote_created _ _ _ _ Hp Hu). simpl. auto.
  - destruct (note_cases req db) as [(e & _ & He & _)|(i & n & Hi & Hn)].
    + by destruct (He req eq_refl) as (-> & _ & _).
    + rewrite (updateNote_found _ _ _ _ Hi Hn). simpl. auto.
  - destruct (note_cases req db) as [(e & _ & He & _)|(i & n & Hi & Hn)].
    + by destruct (He req eq_refl) as (_ & -> & _).
    + rewrite (deleteNote_found _ _ _ _ Hi Hn). simpl. auto.
  - destruct (note_cases req db) as [(e & _ & He & _)|(i & n & Hi & Hn)].
    + by destruct (He req eq_refl) as (_ & _ & ->).
    + rewrite (getNoteById_found _ _ _ _ Hi Hn). simpl. auto.
Qed.

Lemma controller_never_passes (f : Stage) (req : Request) (db : Db) :
  isController f = true → Middleware.passes (exec f) req db = false.
Proof.
  intros Hf. unfold Middleware.passes.
  destruct f; try discriminate; unfold exec, Middleware.asyncHandler.
  - by destruct (NoteControllers.getNotes req db) as [[? ?|?] ?].
  - by destruct (NoteControllers.createNote req db) as [[? ?|?] ?].
  - by destruct (NoteControllers.updateNote req db) as [[? ?|?] ?].
  - by destruct (NoteControllers.deleteNote req db) as [[? ?|?] ?].
  - by destruct (NoteControllers.getNoteById req db) as [[? ?|?] ?].
Qed.

(** X17: a controller ends the chain it is in: in any chain of
    functions, whatever stands after a controller is never invoked, so a
    controller that was invoked is the last function that was. *)
Theorem controller_ends_the_chain
    (chain : list Stage) (req : Request) (db : Db) (f : Stage) :
  isController f = true →
  f ∈ (run chain req db).1.1 →
  last (run chain req db).1.1 = Some f.
Proof.
  intros Hf. revert req db.
  induction chain as [|g rest IH]; intros req db Hin.
  - simpl in Hin. by apply elem_of_nil in Hin.
  - destruct (run_cons_cases g rest req db)
      as [[_ Htr]|(req' & db' & Hg & Htr)]; rewrite Htr in Hin |- *.
    + apply list_elem_of_singleton in Hin as ->. done.
    + apply elem_of_cons in Hin as [->|Hin].
      * pose proof (controller_never_passes g req db Hf) as Hnp.
        unfold Middleware.passes in Hnp. by rewrite Hg in Hnp.
      * specialize (IH req' db' Hin).
        destruct ((run rest req' db').1.1) as [|x xs]; [done|].
        exact IH.
Qed.

(** X18: on every request to the note router, a controller is invoked
    only on a route of the table, and only after [verifyJWT] and then the
    [validateProjectPermission] of the route ([[ADMIN]] on POST, PUT and
    DELETE, [AvailableUserRoles] on GET and on the HEAD that Express
    serves as GET) have both called [next()]; on
    POST and PUT also [notesValidator] and then [validate] have.  This
    holds whatever the imported middlewares do. *)
Theorem controller_only_after_gates
    (method : Method) (path : string) (req : Request) (db : Db) (c : Stage) :
  isController c = true →
  c ∈ (run (dispatch router method path) req db).1.1 →
  (method, path) ∈ routes
  ∧ ∃ req1 db1 req2 db2,
      Middleware.verifyJWT req db = (Middleware.Next req1, db1)
      ∧ Middleware.validateProjectPermission
          (if mutating method then [ADMIN] else AvailableUserRoles) req1 db1
        = (Middleware.Next req2, db2)
      ∧ (method = POST ∨ method = PUT →
         ∃ req3 db3 req4 db4,
           Middleware.notesValidator req2 db2 = (Middleware.Next req3, db3)
           ∧ Middleware.validate req3 db3 = (Middleware.Next req4, db4)).
Proof.
  intros Hc Hin.
  destruct (decide (path = "/:projectId")) as [->|Hp].
  { rewrite dispatch_project in Hin.
    destruct method; repeat step_chain run_cons_cases Hin; try (no_controller Hc Hin);
      cbn [exec] in *; (split; [in_routes|]);
      do 4 eexists; (split; [eassumption|]); (split; [eassumption|]);
      first [ intros [|]; discriminate | intros _; eauto 6 ]. }
  destruct (decide (path = "/:projectId/n/:noteId")) as [->|Hn].
  { rewrite dispatch_note in Hin.
    destruct method; repeat step_chain run_cons_cases Hin; try (no_controller Hc Hin);
      cbn [exec] in *; (split; [in_routes|]);
      do 4 eexists; (split; [eassumption|]); (split; [eassumption|]);
      first [ intros [|]; discriminate | intros _; eauto 6 ]. }
  rewrite dispatch_other in Hin by done.
  repeat step_chain run_cons_cases Hin; no_controller Hc Hin.
Qed.

Lemma dispatch_unrouted (method : Method) (path : string) :
  (method, path) ∉ routes → dispatch router method path = [verifyJWT].
Proof.
  unfold routes. rewrite !not_elem_of_cons.
  intros (H1 & H2 & H3 & H4 & H5 & H6 & H7 & _).
  destruct (decide (path = "/:projectId")) as [->|Hp];
    [rewrite dispatch_project; by destruct method|].
  destruct (decide (path = "/:projectId/n/:noteId")) as [->|Hn];
    [rewrite dispatch_note; by destruct method|].
  by apply dispatch_other.
Qed.

(** X19: a request outside the table (a method the route does not
    register and that is not a HEAD for a GET route, or another path;
    OPTIONS apart, which [cors] answers before any router) still goes
    through [verifyJWT] and through nothing else:
    when [verifyJWT] calls [next()] the router leaves the request
    unanswered, when it raises an error the answer is that of
    [errorHandler]; the database is as [verifyJWT] left it. *)
Theorem unrouted_request_falls_through
    (NODE_ENV : option string) (method : Method) (path : string)
    (req : Request) (db : Db) :
  method ≠ OPTIONS →
  (method, path) ∉ routes →
  (run (dispatch router method path) req db).1.1 = [verifyJWT]
  ∧ handle NODE_ENV method path req db =
      (match (Middleware.verifyJWT req db).1 with
       | Middleware.Next _ => None
       | Middleware.NextErr e => Some (errorHandler NODE_ENV e)
       | Middleware.Sent r => Some r
       end, (Middleware.verifyJWT req db).2).
Proof.
  intros Hmethod Hout. unfold handle.
  rewrite bool_decide_eq_false_2 by done.
  rewrite (dispatch_unrouted _ _ Hout). simpl.
  by destruct (Middleware.verifyJWT req db) as [[req'|e|r] db'].
Qed.

End ControllersInTheRouter.

(** ** app.js: the CORS origin *)
Section CorsOrigin.
Import App.

Lemma split_nonempty (sep : Ascii.ascii) (s : string) : split sep s ≠ [].
Proof.
  destruct s as [|c rest]; simpl; [done|].
  destruct (Ascii.eqb c sep); [done|].
  by destruct (split sep rest).
Qed.

Lemma join_cons (sep : Ascii.ascii) (piece : string) (rest : list string) :
  rest ≠ [] → join sep (piece :: rest) = piece +:+ String sep (join sep rest).
Proof. by destruct rest. Qed.

Lemma join_split (sep : Ascii.ascii) (s : string) : join sep (split sep s) = s.
Proof.
  induction s as [|c rest IH]; [done|].
  simpl. destruct (Ascii.eqb c sep) eqn:Hc.
  - apply Ascii.eqb_eq in Hc as ->.
    rewrite join_cons by apply split_nonempty. simpl. by rewrite IH.
  - destruct (split sep rest) as [|piece pieces] eqn:Hs.
    + by destruct (split_nonempty sep rest).
    + destruct pieces as [|piece' pieces]; rewrite <- IH; reflexivity.
Qed.

Lemma split_pieces (sep : Ascii.ascii) (s : string) :
  Forall (λ piece, contains sep piece = false) (split sep s).
Proof.
  induction s as [|c rest IH]; simpl.
  - by repeat constructor.
  - destruct (Ascii.eqb c sep) eqn:Hc.
    + by constructor.
    + destruct (split sep rest) as [|piece pieces]; [by repeat constructor; simpl; rewrite Hc|].
      apply Forall_cons in IH as [Hpiece Hpieces].
      constructor; [|done]. simpl. by rewrite Hc.
Qed.

Lemma split_piece (sep : Ascii.ascii) (piece : string) :
  contains sep piece = false → split sep piece = [piece].
Proof.
  induction piece as [|c rest IH]; [done|].
  simpl. destruct (Ascii.eqb c sep); [done|]. simpl.
  intros Hrest. by rewrite (IH Hrest).
Qed.

Lemma split_app (sep : Ascii.ascii) (piece rest : string) :
  contains sep piece = false →
  split sep (piece +:+ String sep rest) = piece :: split sep rest.
Proof.
  induction piece as [|c piece IH]; simpl.
  - intros _. by rewrite Ascii.eqb_refl.
  - destruct (Ascii.eqb c sep); [done|]. simpl.
    intros Hpiece. by rewrite (IH Hpiece).
Qed.

Lemma split_join (sep : Ascii.ascii) (pieces : list string) :
  pieces ≠ [] →
  Forall (λ piece, contains sep piece = false) pieces →
  split sep (join sep pieces) = pieces.
Proof.
  induction pieces as [|piece rest IH]; [done|].
  intros _ [Hpiece Hrest]%Forall_cons.
  destruct rest as [|piece' rest].
  - simpl. by apply split_piece.
  - rewrite join_cons by done. rewrite split_app by done.
    by rewrite IH.
Qed.

(** X20: with [CORS_ORIGIN] unset the origin is the local default; with
    [CORS_ORIGIN] set it is always a list and never the default, the
    empty string giving the list of one empty origin.  The list is not
    empty, none of its entries holds a comma, and joined with commas it
    gives [CORS_ORIGIN] back. *)
Theorem corsOrigin_of_variable :
  corsOrigin None = JStr "http://localhost:5173"
  ∧ corsOrigin (Some "") = JArr [JStr ""]
  ∧ ∀ s, ∃ origins,
      corsOrigin (Some s) = JArr (JStr <$> origins)
      ∧ origins ≠ []
      ∧ Forall (λ origin, contains "," origin = false) origins
      ∧ join "," origins = s.
Proof.
  split; [done|]. split; [done|].
  intros s. exists (split "," s). split; [done|].
  split; [apply split_nonempty|].
  split; [apply split_pieces | apply join_split].
Qed.

(** X21: a list of origins, none of which holds a comma, written into
    [CORS_ORIGIN] with commas between them is read back as that very
    list. *)
Theorem corsOrigin_reads_back_origins (origins : list string) :
  origins ≠ [] →
  Forall (λ origin, contains "," origin = false) origins →
  corsOrigin (Some (join "," origins)) = JArr (JStr <$> origins).
Proof.
  intros Hne Hpieces. unfold corsOrigin, js_or. simpl.
  by rewrite split_join.
Qed.

End CorsOrigin.

(** ** The properties above, on the concrete data *)

(** [createNote] without a user on an existing project throws and writes
    nothing. *)
Lemma throwing_controller_writes_nothing_witness :
  (@NoteControllers.createNote Scenario.engine
     (Scenario.request Scenario.p1 None (JStr "hello") None None) Scenario.db).2
  = Scenario.db.
Proof.
  apply (proj1 (proj2 (@throwing_controller_writes_nothing Scenario.engine
                         (Scenario.request Scenario.p1 None (JStr "hello") None None)
                         Scenario.db
                         (@NoteControllers.userTypeError Scenario.engine)))).
  reflexivity.
Defined.

Lemma createNote_adds_one_note_witness :
  size (notes (@NoteControllers.createNote Scenario.engine
                 Examples.createRequest Scenario.db).2) = 2%nat.
Proof.
  apply (@createNote_adds_one_note Scenario.engine Examples.createRequest
           Scenario.db (JObj [("name", JStr "one")]) Scenario.u1 eq_refl eq_refl).
Defined.

Lemma createNote_then_getNoteById_witness :
  ∃ d, (@NoteControllers.createNote Scenario.engine
          Examples.createRequest Scenario.db).1 =
         Respond 201 (ApiResponse.new 201 d (Some "Note created successfully"))
       ∧ @NoteControllers.getNoteById Scenario.engine
           (Scenario.request Scenario.p2 (Some "000000000000000000000000") JUndefined None None)
           (@NoteControllers.createNote Scenario.engine
              Examples.createRequest Scenario.db).2 =
           (Respond 200 (ApiResponse.new 200 d (Some "Note fetched successfully")),
            (@NoteControllers.createNote Scenario.engine
               Examples.createRequest Scenario.db).2).
Proof.
  apply (@createNote_then_getNoteById Scenario.engine Examples.createRequest
           (Scenario.request Scenario.p2 (Some "000000000000000000000000") JUndefined None None)
           Scenario.db (JObj [("name", JStr "one")]) Scenario.u1 eq_refl eq_refl eq_refl).
Defined.


Lemma updateNote_then_getNoteById_witness :
  (@NoteControllers.getNoteById Scenario.engine (Examples.noteRequest Scenario.p2)
     (@NoteControllers.updateNote Scenario.engine
        (Examples.noteRequest Scenario.p1) Scenario.db).2).1
  = Respond 200
      (ApiResponse.new 200
         (ApiResponse.data
            (ApiResponse.new 200
               (@NoteControllers.populate
                  (@NoteControllers.updateNote Scenario.engine
                     (Examples.noteRequest Scenario.p1) Scenario.db).2
                  (Scenario.n1, {| project := Scenario.p2; content := JStr "new text";
                            createdBy := Scenario.u2 |}))
               (Some "Note updated successfully")))
         (Some "Note fetched successfully")).
Proof.
  apply (@updateNote_then_getNoteById Scenario.engine
           (Examples.noteRequest Scenario.p1) (Examples.noteRequest Scenario.p2)
           Scenario.db eq_refl).
Defined.


Lemma getNotes_lists_the_project_witness :
  ∃ found,
    @NoteControllers.getNotes Scenario.engine
      (Scenario.request Scenario.p2 None JUndefined None None) Scenario.db =
      (Respond 200 (ApiResponse.new 200
                      (JArr (NoteControllers.populate Scenario.db <$> found))
                      (Some "Notes fetched successfully")), Scenario.db)
    ∧ NoDup found
    ∧ ∀ i n, (i, n) ∈ found ↔
             notes Scenario.db !! i = Some n ∧ project n = Scenario.p2.
Proof.
  apply (@getNotes_lists_the_project Scenario.engine
           (Scenario.request Scenario.p2 None JUndefined None None) Scenario.db
           (JObj [("name", JStr "two")]) eq_refl).
Defined.

Lemma getNotes_of_empty_project_witness :
  @NoteControllers.getNotes Scenario.engine
    (Scenario.request Scenario.p1 None JUndefined None None) Scenario.db =
    (Respond 200 (ApiResponse.new 200 (JArr [])
                    (Some "Notes fetched successfully")), Scenario.db).
Proof.
  apply (@getNotes_of_empty_project Scenario.engine
           (Scenario.request Scenario.p1 None JUndefined None None) Scenario.db
           (JObj [("name", JStr "one")]) eq_refl).
  intros i n Hn. simpl in Hn.
  apply lookup_insert_Some in Hn as [[_ <-]|[_ Hn]]; [discriminate|].
  by rewrite lookup_empty in Hn.
Defined.

Lemma createNote_then_find_witness :
  ("000000000000000000000000", {| project := Scenario.p1; content := JStr "hello"; createdBy := Scenario.u1 |})
    ∈ Model.find (λ x, bool_decide (project x = Scenario.p1))
        (notes (@NoteControllers.createNote Scenario.engine
                  Examples.createRequest Scenario.db).2).
Proof.
  apply (@createNote_then_find Scenario.engine Examples.createRequest
           Scenario.db (JObj [("name", JStr "one")]) Scenario.u1 Scenario.p1 eq_refl eq_refl).
  right. repeat split.
Defined.

(** An error that says 503 is answered 400. *)
Lemma foreign_error_status_witness :
  status (@errorHandler Scenario.engine (Some "production")
            (ThrownError Examples.unavailable)) = 400.
Proof.
  apply (proj2 (proj2 (@foreign_error_status Scenario.engine (Some "production")
                         Examples.unavailable)) 503 eq_refl).
  discriminate.
Defined.

Lemma errorHandler_keeps_stack_witness :
  json (@errorHandler Scenario.engine (Some "development")
          (ThrownError Scenario.plainError)) !! "stack"
  = Some (JStr "Error: boom").
Proof.
  apply (@errorHandler_keeps_stack Scenario.engine Scenario.plainError
           "Error: boom" eq_refl).
  discriminate.
Defined.

Lemma controller_outcomes_witness :
  match (@NoteRoutes.exec Scenario.engine Scenario.middlewares
           NoteRoutes.deleteNote (Examples.noteRequest Scenario.p1) Scenario.db).1 with
  | Middleware.Next _ => False
  | Middleware.Sent r =>
      (status r = 200 ∨ status r = 201)
      ∧ json r !! "statusCode" = Some (JNum (status r))
      ∧ json r !! "success" = Some (JBool true)
  | Middleware.NextErr e => True
  end.
Proof.
  apply (@controller_outcomes Scenario.engine Scenario.middlewares
           NoteRoutes.deleteNote (Examples.noteRequest Scenario.p1) Scenario.db eq_refl).
Defined.

(** A chain with a function registered after a controller: the function
    is not reached. *)
Lemma controller_ends_the_chain_witness :
  last (@NoteRoutes.run Scenario.engine Scenario.middlewares
          [NoteRoutes.getNoteById; NoteRoutes.deleteNote]
          (Examples.noteRequest Scenario.p1) Scenario.db).1.1
  = Some NoteRoutes.getNoteById.
Proof.
  apply (@controller_ends_the_chain Scenario.engine Scenario.middlewares
           [NoteRoutes.getNoteById; NoteRoutes.deleteNote]
           (Examples.noteRequest Scenario.p1) Scenario.db NoteRoutes.getNoteById eq_refl).
  apply list_elem_of_here.
Defined.

(** Alice, with her valid token, posts a note to [p1]: the controller
    runs, after both gates and both validators. *)
Lemma controller_only_after_gates_witness :
  (NoteRoutes.POST, "/:projectId") ∈ NoteRoutes.routes
  ∧ ∃ req1 db1 req2 db2,
      @Middleware.verifyJWT Scenario.middlewares
        (Examples.tokenRequest "good") Scenario.db = (Middleware.Next req1, db1)
      ∧ @Middleware.validateProjectPermission Scenario.middlewares [ADMIN] req1 db1
        = (Middleware.Next req2, db2)
      ∧ (NoteRoutes.POST = NoteRoutes.POST ∨ NoteRoutes.POST = NoteRoutes.PUT →
         ∃ req3 db3 req4 db4,
           @Middleware.notesValidator Scenario.middlewares req2 db2
             = (Middleware.Next req3, db3)
           ∧ @Middleware.validate Scenario.middlewares req3 db3
             = (Middleware.Next req4, db4)).
Proof.
  apply (@controller_only_after_gates Scenario.engine Scenario.middlewares
           NoteRoutes.POST "/:projectId" (Examples.tokenRequest "good")
           Scenario.db NoteRoutes.createNote eq_refl).
  vm_compute. do 4 apply list_elem_of_further. apply list_elem_of_here.
Defined.

(** PATCH is not registered: with a valid token the request is left
    unanswered. *)
Lemma unrouted_request_falls_through_witness :
  (@NoteRoutes.handle Scenario.engine Scenario.middlewares (Some "production")
     NoteRoutes.PATCH "/:projectId" (Examples.tokenRequest "good") Scenario.db).1
  = None.
Proof.
  rewrite (proj2 (@unrouted_request_falls_through Scenario.engine
                    Scenario.middlewares (Some "production")
                    NoteRoutes.PATCH "/:projectId"
                    (Examples.tokenRequest "good") Scenario.db
                    ltac:(discriminate)
                    ltac:(unfold NoteRoutes.routes;
                          rewrite !not_elem_of_cons, elem_of_nil;
                          repeat split; try discriminate; tauto))).
  reflexivity.
Defined.

Lemma corsOrigin_reads_back_origins_witness :
  App.corsOrigin (Some "http://a.test,http://b.test")
  = JArr [JStr "http://a.test"; JStr "http://b.test"].
Proof.
  apply (corsOrigin_reads_back_origins ["http://a.test"; "http://b.test"]).
  - discriminate.
  - repeat constructor.
Defined.

(** The id a new note gets in the scenario is an ObjectId. *)
Example newObjectId_is_valid :
  Model.newObjectId (dom (notes Scenario.db)) = "000000000000000000000000"
  ∧ Model.isValidObjectId (Model.newObjectId (dom (notes Scenario.db))) = true.
Proof. split; reflexivity. Qed.

(** A read of the note ["not-an-id"] is answered 400. *)
Lemma uncastable_id_is_400_witness :
  ∃ e, @NoteControllers.getNoteById Scenario.engine
         (Scenario.request Scenario.p1 (Some "not-an-id") JUndefined None None)
         Scenario.db = (Throw (ThrownError e), Scenario.db)
       ∧ status (@errorHandler Scenario.engine (Some "production") (ThrownError e))
         = 400.
Proof.
  destruct (proj2 (@uncastable_id_is_400 Scenario.engine (Some "production")
                     (Scenario.request Scenario.p1 (Some "not-an-id")
                        JUndefined None None)
                     Scenario.db) "not-an-id" eq_refl eq_refl eq_refl)
    as (e & _ & _ & Hget & _ & Hstatus).
  exists e. split; [exact Hget | exact Hstatus].
Defined.
